(** * Adapter: a repository-pattern user store with a reflective auto-migration

    Shallow embedding of the Go packages [models], [repository] and [service],
    together with the few functions of the Go standard library they call
    ([strings], [strconv], [reflect], [database/sql]), followed by the
    properties of the schema translator, the two storage backends and the
    user service. *)

From Stdlib Require Import String Ascii List ZArith Bool Lia DecimalString.
From ExtLib Require Import Structures.Monad.
Import ListNotations.
Import MonadNotation.
Local Open Scope string_scope.
Local Open Scope monad_scope.

(** ** Parts of the Go standard library that are tables, not code

    Two library functions fall back on large tables (Unicode case mapping)
    or on a long escape decoder as soon as their argument leaves plain
    ASCII.  Those fall-backs are taken as parameters; every result below
    holds whatever they compute. *)
Class GoStdlib : Type := {
(** [strings.Map(unicode.ToLower, s)], reached by [strings.ToLower] when
    [s] holds a byte >= 0x80. *)
  unicode_ToLower : string -> string;
(** [strconv.Unquote] on everything except a double-quoted literal made of
    ASCII bytes without backslash, newline or inner quote. *)
  Unquote_general : string -> option string
}.

(** Bytes that occur in the sources as Go character literals. *)
Definition dquote : ascii := "034"%char.
Definition backslash : ascii := "092"%char.
Definition newline : ascii := "010"%char.
Definition DEL : ascii := "127"%char.

(** [c < utf8.RuneSelf] *)
Definition isASCIIbyte (c : ascii) : bool := (c <? "128")%char.

(** ** package strings *)
Module strings.
Section WithStdlib.
Context {L : GoStdlib}.

Definition isUpper (c : ascii) : bool := (("A" <=? c) && (c <=? "Z"))%char.

(** [c += 'a' - 'A'] on an upper-case ASCII letter. *)
Definition lowerByte (c : ascii) : ascii :=
  if isUpper c then ascii_of_nat (nat_of_ascii c + 32) else c.

Fixpoint isASCII (s : string) : bool :=
  match s with
  | EmptyString => true
  | String c s' => isASCIIbyte c && isASCII s'
  end.

Fixpoint mapBytes (f : ascii -> ascii) (s : string) : string :=
  match s with
  | EmptyString => EmptyString
  | String c s' => String (f c) (mapBytes f s')
  end.

(** [strings.ToLower]: byte-wise on ASCII-only strings, the Unicode
    mapping otherwise. *)
Definition ToLower (s : string) : string :=
  if isASCII s then mapBytes lowerByte s else unicode_ToLower s.
End WithStdlib.

(** [strings.Split(s, sep)] for a one-byte separator, the only way the
    sources call it.  [cur] is the piece read so far. *)
Fixpoint splitFrom (sep : ascii) (s : string) (cur : string) : list string :=
  match s with
  | EmptyString => [cur]
  | String c s' =>
      if (c =? sep)%char then cur :: splitFrom sep s' EmptyString
      else splitFrom sep s' (cur ++ String c EmptyString)
  end.

Definition Split (s : string) (sep : ascii) : list string :=
  splitFrom sep s EmptyString.

(** [strings.Join(elems, sep)] *)
Definition Join (elems : list string) (sep : string) : string :=
  String.concat sep elems.
End strings.

(** ** package strconv *)
Module strconv.
Section WithStdlib.
Context {L : GoStdlib}.

Definition plainByte (c : ascii) : bool :=
  (negb (c =? backslash) && negb (c =? newline) && negb (c =? dquote))%char
  && isASCIIbyte c.

(** Reads the body of a double-quoted literal after its opening quote:
    plain bytes up to a closing quote that ends the input. *)
Fixpoint plainBody (s : string) : option string :=
  match s with
  | EmptyString => None
  | String c s' =>
      if (c =? dquote)%char then
        match s' with EmptyString => Some EmptyString | _ => None end
      else if plainByte c then option_map (String c) (plainBody s')
      else None
  end.

(** [strconv.Unquote]; [None] is [ErrSyntax]. *)
Definition Unquote (s : string) : option string :=
  match s with
  | String q body =>
      if (q =? dquote)%char then
        match plainBody body with
        | Some v => Some v
        | None => Unquote_general s
        end
      else Unquote_general s
  | EmptyString => Unquote_general s
  end.
End WithStdlib.
End strconv.

(** ** package reflect *)
Module reflect.

Inductive Kind : Type :=
  | KInvalid | KBool
  | KInt | KInt8 | KInt16 | KInt32 | KInt64
  | KUint | KUint8 | KUint16 | KUint32 | KUint64 | KUintptr
  | KFloat32 | KFloat64 | KComplex64 | KComplex128
  | KArray | KChan | KFunc | KInterface | KMap | KPointer | KSlice
  | KString | KStruct | KUnsafePointer.

Definition Kind_eq_dec (a b : Kind) : {a = b} + {a <> b}.
Proof. decide equality. Defined.

(** A [reflect.Type] with what the sources read from it, and the
    [reflect.StructField]s of a struct type. *)
Inductive Type_ : Type :=
  | MkType (kind : Kind) (name : string) (str : string)
           (fields : list StructField)
  with StructField : Type :=
  | MkField (fname : string) (ftype : Type_) (ftag : string).

Definition Kind_of (t : Type_) : Kind := let (k, _, _, _) := t in k.
(** [t.Name()] *)
Definition Name (t : Type_) : string := let (_, n, _, _) := t in n.
(** [t.String()] *)
Definition String_ (t : Type_) : string := let (_, _, s, _) := t in s.
Definition Fields (t : Type_) : list StructField := let (_, _, _, fs) := t in fs.
Definition NumField (t : Type_) : nat := length (Fields t).

Definition FieldName (f : StructField) : string := let (n, _, _) := f in n.
Definition FieldType (f : StructField) : Type_ := let (_, t, _) := f in t.
Definition Tag (f : StructField) : string := let (_, _, g) := f in g.

Section WithStdlib.
Context {L : GoStdlib}.

(** *** [StructTag.Lookup] *)

(** Skip leading space. *)
Fixpoint skipSpaces (tag : string) : string :=
  match tag with
  | String c rest => if (c =? " ")%char then skipSpaces rest else tag
  | EmptyString => EmptyString
  end.

(** The bytes a key may be made of: above the space, and none of the
    colon, the double quote and 0x7f. *)
Definition keyByte (c : ascii) : bool :=
  ((" " <? c) && negb (c =? ":") && negb (c =? dquote) && negb (c =? DEL))%char.

(** Scan to colon: splits [tag] into [tag[:i]] and [tag[i:]]. *)
Fixpoint scanKey (tag : string) : string * string :=
  match tag with
  | String c rest =>
      if keyByte c then
        let (k, r) := scanKey rest in (String c k, r)
      else (EmptyString, tag)
  | EmptyString => (EmptyString, EmptyString)
  end.

(** Scan quoted string to find value: on [tag[1:]] (the opening quote
    is at index 0), returns [tag[1:i]] and [tag[i+1:]] for the index [i]
    of the closing quote; a backslash skips the byte after it. *)
Fixpoint scanQuoted (s : string) : option (string * string) :=
  match s with
  | EmptyString => None
  | String c s1 =>
      if (c =? dquote)%char then Some (EmptyString, s1)
      else if (c =? backslash)%char then
        match s1 with
        | EmptyString => None
        | String c2 s2 =>
            match scanQuoted s2 with
            | Some (v, r) => Some (String c (String c2 v), r)
            | None => None
            end
        end
      else
        match scanQuoted s1 with
        | Some (v, r) => Some (String c v, r)
        | None => None
        end
  end.

(** The loop over the remaining tag; every [break] leads to the final
    return of the empty string and [false].  One unit of [fuel] per
    iteration. *)
Fixpoint LookupLoop (fuel : nat) (tag key : string) : string * bool :=
  match fuel with
  | O => (EmptyString, false)
  | S fuel' =>
      match skipSpaces tag with
      | EmptyString => (EmptyString, false)
      | String _ _ as tag1 =>
          let (name, rest) := scanKey tag1 in
          match name, rest with
          | String _ _, String c0 (String c1 rest') =>
              if ((c0 =? ":") && (c1 =? dquote))%char then
                match scanQuoted rest' with
                | None => (EmptyString, false)
                | Some (body, tag2) =>
                    if (key =? name)%string then
                      match strconv.Unquote
                              (String dquote (body ++ String dquote EmptyString)) with
                      | Some value => (value, true)
                      | None => (EmptyString, false)
                      end
                    else LookupLoop fuel' tag2 key
                end
              else (EmptyString, false)
          | _, _ => (EmptyString, false)
          end
      end
  end.

Definition Lookup (tag key : string) : string * bool :=
  LookupLoop (S (String.length tag)) tag key.

(** [StructTag.Get] *)
Definition Get (tag key : string) : string := fst (Lookup tag key).
End WithStdlib.
End reflect.

(** ** package models *)
Module models.
Import reflect.

(** [type User struct { ID int; Name string }] *)
Record User : Type := { ID : Z; Name : string }.

Definition int_type : Type_ := MkType KInt "int" "int" [].
Definition string_type : Type_ := MkType KString "string" "string" [].

(** The struct tags as they are written in user.go. *)
Definition ID_tag : string := "db:id, primary".
Definition Name_tag : string :=
  "db:" ++ String dquote ("name" ++ String dquote EmptyString).

(** [reflect.TypeOf(models.User{})] *)
Definition User_type : Type_ :=
  MkType KStruct "User" "models.User"
    [ MkField "ID" int_type ID_tag; MkField "Name" string_type Name_tag ].
End models.

(** ** Go values and effects *)

(** An [error] is identified with its message; wrapping with [%w] prefixes
    the message. *)
Definition error : Type := string.

(** A Go result pair [(T, error)]: either the value with a nil error, or
    the error. *)
Inductive res (T : Type) : Type :=
| Ok (v : T)
| Fail (e : error).
Arguments Ok {T} v.
Arguments Fail {T} e.

(** [_, err := ...] *)
Definition err_of {T : Type} (r : res T) : option error :=
  match r with Ok _ => None | Fail e => Some e end.

(** ** package database/sql, as far as the repositories use it *)
Module sql.
(** A [*sql.DB] connection handle. *)
Definition DB : Type := nat.

(** Statement arguments and printed operands. *)
Inductive Value : Type :=
  | VString (s : string)
  | VInt (n : Z).

(** [sql.Result] *)
Record Result : Type := {
    LastInsertId : res Z;
    RowsAffected : res Z
  }.

(** [*sql.Rows] of a query selecting [id, name]: for every row that
    [Next] yields, what [Scan(&u.ID, &u.Name)] does with it, and the
    final [Err()]. *)
Record Rows : Type := {
    scans : list (res (Z * string));
    Err : option error
  }.
End sql.

(** Go code that talks to the backend: a tree of calls, each continued with
    the backend's answer, ending in a returned value or in a panic. *)
Inductive Go (A : Type) : Type :=
| Return (a : A)
| Panic (msg : string)
| Exec (db : sql.DB) (query : string) (args : list sql.Value)
       (k : res sql.Result -> Go A)
| Query (db : sql.DB) (query : string) (args : list sql.Value)
        (k : res sql.Rows -> Go A)
| Close (db : sql.DB) (k : Go A)
| Println (args : list sql.Value) (k : Go A).
Arguments Return {A} a.
Arguments Panic {A} msg.
Arguments Exec {A} db query args k.
Arguments Query {A} db query args k.
Arguments Close {A} db k.
Arguments Println {A} args k.

Fixpoint bindGo {A B : Type} (p : Go A) (f : A -> Go B) : Go B :=
  match p with
  | Return a => f a
  | Panic msg => Panic msg
  | Exec db q args k => Exec db q args (fun r => bindGo (k r) f)
  | Query db q args k => Query db q args (fun r => bindGo (k r) f)
  | Close db k => Close db (bindGo k f)
  | Println args k => Println args (bindGo k f)
  end.

#[export] Instance Monad_Go : Monad Go :=
  {| ret := @Return; bind := @bindGo |}.

(** [db.Exec(query, args...)], [db.Query(query, args...)], [rows.Close()]
    and [fmt.Println(args...)] as single calls. *)
Definition db_Exec (db : sql.DB) (query : string) (args : list sql.Value)
  : Go (res sql.Result) := Exec db query args Return.
Definition db_Query (db : sql.DB) (query : string) (args : list sql.Value)
  : Go (res sql.Rows) := Query db query args Return.
Definition rows_Close (db : sql.DB) : Go unit := Close db (Return tt).
Definition fmt_Println (args : list sql.Value) : Go unit := Println args (Return tt).

(** *** Running a program against a backend *)

(** What reaches the outside world. *)
Inductive Event : Type :=
| EvExec (db : sql.DB) (query : string) (args : list sql.Value)
| EvQuery (db : sql.DB) (query : string) (args : list sql.Value)
| EvClose (db : sql.DB)
| EvPrintln (args : list sql.Value).

Inductive Outcome (A : Type) : Type :=
| Returned (a : A)
| Panicked (msg : string).
Arguments Returned {A} a.
Arguments Panicked {A} msg.

(** A backend with state [W]: its answers to statements and queries. *)
Record Backend (W : Type) : Type := {
  onExec : sql.DB -> string -> list sql.Value -> W -> res sql.Result * W;
  onQuery : sql.DB -> string -> list sql.Value -> W -> res sql.Rows * W
}.
Arguments onExec {W} b db query args w.
Arguments onQuery {W} b db query args w.

Fixpoint run {W A : Type} (B : Backend W) (p : Go A) (w : W)
  : Outcome A * list Event * W :=
  match p with
  | Return a => (Returned a, [], w)
  | Panic msg => (Panicked msg, [], w)
  | Exec db q args k =>
      let (r, w1) := onExec B db q args w in
      let '(o, tr, w2) := run B (k r) w1 in
      (o, EvExec db q args :: tr, w2)
  | Query db q args k =>
      let (r, w1) := onQuery B db q args w in
      let '(o, tr, w2) := run B (k r) w1 in
      (o, EvQuery db q args :: tr, w2)
  | Close db k =>
      let '(o, tr, w1) := run B k w in (o, EvClose db :: tr, w1)
  | Println args k =>
      let '(o, tr, w1) := run B k w in (o, EvPrintln args :: tr, w1)
  end.

Definition outcome {W A : Type} (x : Outcome A * list Event * W) : Outcome A :=
  fst (fst x).
Definition trace {W A : Type} (x : Outcome A * list Event * W) : list Event :=
  snd (fst x).

(** The runtime's message for a method call through a nil interface. *)
Definition nil_dereference : string :=
  "runtime error: invalid memory address or nil pointer dereference".

(** ** package repository *)
Module repository.

(** [type UserRepository interface { Create; GetAll }] *)
Record UserRepository : Type := {
    Create : models.User -> Go (option error);
    GetAll : Go (list models.User * option error)
  }.

(** The row loop shared by both [GetAll]s: [rows.Next()], then
    [rows.Scan(&u.ID, &u.Name)], then [append]. *)
Fixpoint scanLoop (rows : list (res (Z * string))) (users : list models.User)
  : res (list models.User) :=
  match rows with
  | [] => Ok users
  | Fail e :: _ => Fail ("failed to scan user: " ++ e)
  | Ok (id, name) :: rest =>
      scanLoop rest (users ++ [ {| models.ID := id; models.Name := name |} ])
  end.

(** *** postgres.go and the auto-migration *)
Module PostgresRepo.
Record t : Type := { db : sql.DB }.

Section WithStdlib.
Context {L : GoStdlib}.

Definition goTypeToPostgres (t : reflect.Type_) : Go string :=
  match reflect.Kind_of t with
  | reflect.KInt | reflect.KInt64 => Return "BIGSERIAL"
  | reflect.KString => Return "TEXT"
  | _ => Panic ("unsupported type: " ++ reflect.String_ t)
  end.

(** The loop of [AutoMigrate] over [t.Field(i)], with the [columns]
    collected so far. *)
Fixpoint AutoMigrate_loop (fields : list reflect.StructField)
         (columns : list string) : Go (list string) :=
  match fields with
  | [] => ret columns
  | f :: rest =>
      let tag := reflect.Get (reflect.Tag f) "db" in
      if (tag =? "")%string then AutoMigrate_loop rest columns
      else
        let parts := strings.Split tag "," in
        match parts with
        | [] => Panic "runtime error: index out of range [0] with length 0"
        | col :: _ =>
            sqlType <- goTypeToPostgres (reflect.FieldType f) ;;
            let def := col ++ " " ++ sqlType in
            let def :=
              if (1 <? length parts)%nat && (nth 1 parts "" =? "primary")%string
              then def ++ " PRIMARY KEY" else def in
            AutoMigrate_loop rest (columns ++ [def])
        end
  end.

(** [model] is the dynamic type of the [any] argument; [None] is the nil
    interface, for which [reflect.TypeOf] returns nil. *)
Definition AutoMigrate (p : t) (model : option reflect.Type_)
  : Go (option error) :=
  match model with
  | None => Panic nil_dereference
  | Some ty =>
      if reflect.Kind_eq_dec (reflect.Kind_of ty) reflect.KStruct then
        let table := strings.ToLower (reflect.Name ty) ++ "s" in
        columns <- AutoMigrate_loop (reflect.Fields ty) [] ;;
        let query :=
          "CREATE TABLE IF NOT EXISTS " ++ table ++ " ("
            ++ strings.Join columns ", " ++ ");" in
        r <- db_Exec (db p) query [] ;;
        ret (err_of r)
      else ret (Some "model must be a struct")
  end.

Definition Create (p : t) (user : models.User) : Go (option error) :=
  r <- db_Exec (db p) "INSERT INTO users (name) VALUES ($1)"
               [sql.VString (models.Name user)] ;;
  match r with
  | Fail err => ret (Some ("failed to insert user: " ++ err))
  | Ok result =>
      match sql.RowsAffected result with
      | Fail err => ret (Some ("failed to get rows affected: " ++ err))
      | Ok rows =>
          fmt_Println [sql.VString "Inserted rows:"; sql.VInt rows] ;;
          ret None
      end
  end.

Definition GetAll (p : t) : Go (list models.User * option error) :=
  r <- db_Query (db p) "SELECT id, name FROM users" [] ;;
  match r with
  | Fail err => ret ([], Some ("failed to query users: " ++ err))
  | Ok rows =>
      let result :=
        match scanLoop (sql.scans rows) [] with
        | Fail err => ([], Some err)
        | Ok users =>
            match sql.Err rows with
            | Some err => ([], Some ("error iterating rows: " ++ err))
            | None => (users, None)
            end
        end in
      rows_Close (db p) ;;
      ret result
  end.

Definition asUserRepository (p : t) : UserRepository :=
  {| repository.Create := Create p; repository.GetAll := GetAll p |}.
End WithStdlib.
End PostgresRepo.

Section WithStdlib.
Context {L : GoStdlib}.

(** A nil [*PostgresRepo] is [None]. *)
Definition NewPostgresRepo (db : sql.DB)
  : Go (option PostgresRepo.t * option error) :=
  let repo := {| PostgresRepo.db := db |} in
  err <- PostgresRepo.AutoMigrate repo (Some models.User_type) ;;
  match err with
  | Some e => ret (None, Some e)
  | None => ret (Some repo, None)
  end.
End WithStdlib.

(** *** mysql.go *)
Module MySQLRepo.
Record t : Type := { db : sql.DB }.

Definition Create (m : t) (user : models.User) : Go (option error) :=
  r <- db_Exec (db m) "INSERT INTO users (name) VALUES (?)"
               [sql.VString (models.Name user)] ;;
  match r with
  | Fail err => ret (Some ("failed to insert user: " ++ err))
  | Ok _ => ret None
  end.

Definition GetAll (m : t) : Go (list models.User * option error) :=
  r <- db_Query (db m) "SELECT id, name FROM users" [] ;;
  match r with
  | Fail err => ret ([], Some ("failed to query users: " ++ err))
  | Ok rows =>
      let result :=
        match scanLoop (sql.scans rows) [] with
        | Fail err => ([], Some err)
        | Ok users =>
            match sql.Err rows with
            | Some err => ([], Some ("error iterating rows: " ++ err))
            | None => (users, None)
            end
        end in
      rows_Close (db m) ;;
      ret result
  end.

Definition asUserRepository (m : t) : UserRepository :=
  {| repository.Create := Create m; repository.GetAll := GetAll m |}.
End MySQLRepo.

Definition NewMySQLRepo (db : sql.DB) : MySQLRepo.t :=
  {| MySQLRepo.db := db |}.
End repository.

(** ** package service *)
Module service.
Record UserService : Type := { repo : repository.UserRepository }.

Definition NewUserService (repo : repository.UserRepository) : UserService :=
  {| repo := repo |}.

(** [models.User{Name: name}] leaves [ID] at its zero value. *)
Definition RegisterUser (s : UserService) (name : string) : Go (option error) :=
  if (name =? "")%string then ret (Some "user name cannot be empty")
  else
    let user := {| models.ID := 0%Z; models.Name := name |} in
    err <- repository.Create (repo s) user ;;
    match err with
    | Some e => ret (Some ("failed to register user: " ++ e))
    | None => ret None
    end.

Definition ListUsers (s : UserService)
  : Go (list models.User * option error) :=
  r <- repository.GetAll (repo s) ;;
  match r with
  | (_, Some e) => ret ([], Some ("failed to list users: " ++ e))
  | (users, None) => ret (users, None)
  end.
End service.

(** ** Vocabulary of the specification *)

(** A standard library for closed examples: the two fall-backs are given
    trivial bodies; none of the examples below reaches them. *)
Definition plainStdlib : GoStdlib :=
  {| unicode_ToLower := fun s => s; Unquote_general := fun _ => None |}.

(** The semantic field types of the specification, and the kinds that
    stand for them. *)
Inductive SemanticType : Type := SemInteger | SemString.

Definition semantic (k : reflect.Kind) : option SemanticType :=
  match k with
  | reflect.KInt | reflect.KInt64 => Some SemInteger
  | reflect.KString => Some SemString
  | _ => None
  end.

(** The storage type tokens of the specification. *)
Definition storageToken (s : SemanticType) : string :=
  match s with
  | SemInteger => "BIGSERIAL"
  | SemString => "TEXT"
  end.

(** A column definition and the generated schema, in the words of the
    specification: [<col> <type> [PRIMARY KEY]] and
    [CREATE TABLE IF NOT EXISTS <table> (..., ...);]. *)
Record ColumnDef : Type := {
  column : string;
  storageType : string;
  primary : bool
}.

Definition renderColumn (c : ColumnDef) : string :=
  column c ++ " " ++ storageType c ++ (if primary c then " PRIMARY KEY" else "").

Definition CreateTableStatement (table : string) (cols : list ColumnDef) : string :=
  "CREATE TABLE IF NOT EXISTS " ++ table ++ " ("
    ++ String.concat ", " (map renderColumn cols) ++ ");".

Section DeriveSchema.
Context {L : GoStdlib}.

(** The storage metadata of a field: its column name and primary-key
    flag, or nothing when the field declares no column. *)
Definition storageMetadata (f : reflect.StructField) : option (string * bool) :=
  let tag := reflect.Get (reflect.Tag f) "db" in
  if (tag =? "")%string then None
  else
    let parts := strings.Split tag "," in
    Some (hd "" parts, (nth 1 parts "" =? "primary")%string).

(** The ordered column definitions of the specification's DeriveSchema:
    fields without storage metadata are skipped, and a field of an
    unsupported type makes the derivation fail. *)
Fixpoint DeriveColumns (fields : list reflect.StructField)
  : option (list ColumnDef) :=
  match fields with
  | [] => Some []
  | f :: rest =>
      match storageMetadata f with
      | None => DeriveColumns rest
      | Some (col, pk) =>
          match semantic (reflect.Kind_of (reflect.FieldType f)) with
          | None => None
          | Some sem =>
              match DeriveColumns rest with
              | None => None
              | Some cols =>
                  Some ({| column := col; storageType := storageToken sem;
                           primary := pk |} :: cols)
              end
          end
      end
  end.

End DeriveSchema.

(** The statement the auto-migration of [models.User] sends. *)
Definition User_DDL : string := "CREATE TABLE IF NOT EXISTS users (name TEXT);".

(** Schema statements among the events of a run. *)
Definition isSchemaEvent (e : Event) : bool :=
  match e with
  | EvExec _ q _ => String.prefix "CREATE TABLE" q
  | _ => false
  end.

Definition schemaApplications (tr : list Event) : nat :=
  length (filter isSchemaEvent tr).

(** Statements and queries among the events of a run. *)
Definition isStorageEvent (e : Event) : bool :=
  match e with
  | EvExec _ _ _ | EvQuery _ _ _ => true
  | _ => false
  end.

Definition storageOperations (tr : list Event) : nat :=
  length (filter isStorageEvent tr).

(** The two constructors of package repository behind the one contract:
    the handle the service would be given, if construction yields one. *)
Inductive BackendKind : Type := PostgreSQL | MySQL.

Definition construct {L : GoStdlib} (kind : BackendKind) (db : sql.DB)
  : Go (option repository.UserRepository * option error) :=
  match kind with
  | PostgreSQL =>
      r <- repository.NewPostgresRepo db ;;
      ret (option_map repository.PostgresRepo.asUserRepository (fst r), snd r)
  | MySQL =>
      ret (Some (repository.MySQLRepo.asUserRepository
                   (repository.NewMySQLRepo db)), None)
  end.

(** Backends for closed examples. *)
Definition insertResult (n : Z) : sql.Result :=
  {| sql.LastInsertId := Ok 0%Z; sql.RowsAffected := Ok n |}.

(** Accepts every statement and has no rows. *)
Definition emptyBackend : Backend unit :=
  {| onExec := fun _ _ _ w => (Ok (insertResult 1), w);
     onQuery := fun _ _ _ w => (Ok {| sql.scans := []; sql.Err := None |}, w) |}.

(** A driver whose results do not report the affected rows. *)
Definition noRowCountBackend : Backend unit :=
  {| onExec := fun _ _ _ w =>
       (Ok {| sql.LastInsertId := Ok 0%Z;
              sql.RowsAffected := Fail "RowsAffected is not supported" |}, w);
     onQuery := fun _ _ _ w => (Ok {| sql.scans := []; sql.Err := None |}, w) |}.

(** A backend answering the listing with the given rows. *)
Definition rowsBackend (rows : sql.Rows) : Backend unit :=
  {| onExec := fun _ _ _ w => (Ok (insertResult 1), w);
     onQuery := fun _ _ _ w => (Ok rows, w) |}.

Definition bool_type : reflect.Type_ := reflect.MkType reflect.KBool "bool" "bool" [].

(** A struct with a field of an unsupported type that declares a column:
    a boolean field [Active] tagged with the [db] key and value [active]. *)
Definition Flagged_type : reflect.Type_ :=
  reflect.MkType reflect.KStruct "Flagged" "models.Flagged"
    [ reflect.MkField "Active" bool_type
        ("db:" ++ String dquote ("active" ++ String dquote EmptyString)) ].

(** A test double of the repository contract that makes every call
    visible as a statement carrying the record it was given. *)
Definition spyRepository : repository.UserRepository :=
  {| repository.Create := fun user =>
       Exec 0 "spy.Create"
            [sql.VInt (models.ID user); sql.VString (models.Name user)]
            (fun _ => Return None);
     repository.GetAll :=
       Query 0 "spy.GetAll" [] (fun _ => Return ([], None)) |}.

(** ** package config *)
Module config.

(** [type DatabaseConfig struct] *)
Record DatabaseConfig : Type := {
  Host : string;
  Port : Z;
  User : string;
  Password : string;
  DBName : string;
  SSLMode : string
}.

(** Code that opens a connection: [sql.Open] and [db.Ping] are calls
    continued with the answer of the driver. *)
Inductive Dial (A : Type) : Type :=
| Done (a : A)
| Open (driverName dataSourceName : string) (k : res sql.DB -> Dial A)
| Ping (db : sql.DB) (k : option error -> Dial A).
Arguments Done {A} a.
Arguments Open {A} driverName dataSourceName k.
Arguments Ping {A} db k.

(** The verb [%d] of [fmt.Sprintf] on an [int]. *)
Definition formatInt (n : Z) : string := NilZero.string_of_int (Z.to_int n).

Definition NewPostgresConnection (cfg : DatabaseConfig)
  : Dial (option sql.DB * option error) :=
  let connStr :=
    "postgres://" ++ User cfg ++ ":" ++ Password cfg ++ "@" ++ Host cfg ++ ":"
      ++ formatInt (Port cfg) ++ "/" ++ DBName cfg ++ "?sslmode=" ++ SSLMode cfg in
  Open "postgres" connStr (fun r =>
    match r with
    | Fail err => Done (None, Some ("failed to open database: " ++ err))
    | Ok db =>
        Ping db (fun e =>
          match e with
          | Some err => Done (None, Some ("failed to ping database: " ++ err))
          | None => Done (Some db, None)
          end)
    end).

Definition NewMySQLConnection (cfg : DatabaseConfig)
  : Dial (option sql.DB * option error) :=
  let connStr :=
    User cfg ++ ":" ++ Password cfg ++ "@tcp(" ++ Host cfg ++ ":"
      ++ formatInt (Port cfg) ++ ")/" ++ DBName cfg in
  Open "mysql" connStr (fun r =>
    match r with
    | Fail err => Done (None, Some ("failed to open database: " ++ err))
    | Ok db =>
        Ping db (fun e =>
          match e with
          | Some err => Done (None, Some ("failed to ping database: " ++ err))
          | None => Done (Some db, None)
          end)
    end).

(** *** Running against a driver *)
Inductive DialEvent : Type :=
| EvOpen (driverName dataSourceName : string)
| EvPing (db : sql.DB).

Record Driver (W : Type) : Type := {
  onOpen : string -> string -> W -> res sql.DB * W;
  onPing : sql.DB -> W -> option error * W
}.
Arguments onOpen {W} d driverName dataSourceName w.
Arguments onPing {W} d db w.

Fixpoint dial {W A : Type} (D : Driver W) (p : Dial A) (w : W)
  : A * list DialEvent * W :=
  match p with
  | Done a => (a, [], w)
  | Open drv dsn k =>
      let (r, w1) := onOpen D drv dsn w in
      let '(a, tr, w2) := dial D (k r) w1 in
      (a, EvOpen drv dsn :: tr, w2)
  | Ping db k =>
      let (e, w1) := onPing D db w in
      let '(a, tr, w2) := dial D (k e) w1 in
      (a, EvPing db :: tr, w2)
  end.
End config.

(** ** Vocabulary for struct tags and rows *)

(** All bytes of [s] satisfy [p]. *)
Fixpoint allBytes (p : ascii -> bool) (s : string) : bool :=
  match s with
  | EmptyString => true
  | String c s' => p c && allBytes p s'
  end.

(** The first byte of [s], if any, is not [c]. *)
Definition notStartingWith (c : ascii) (s : string) : bool :=
  match s with
  | EmptyString => true
  | String c0 _ => negb (c0 =? c)%char
  end.

(** A Go string literal in double quotes around [v]. *)
Definition quoted (v : string) : string :=
  String dquote (v ++ String dquote EmptyString).

(** The conventional key:value pair of a struct tag, the value quoted. *)
Definition tagPair (key v : string) : string := key ++ ":" ++ quoted v.

Definition notComma (c : ascii) : bool := negb (c =? ",")%char.

(** A byte that ends neither a quoted tag value nor starts an escape. *)
Definition notQuoteNorBackslash (c : ascii) : bool :=
  (negb (c =? dquote) && negb (c =? backslash))%char.

(** The record [Scan] fills from a decoded row. *)
Definition userOfRow (r : Z * string) : models.User :=
  {| models.ID := fst r; models.Name := snd r |}.

(** A driver for closed examples: opens every connection as handle 7 and
    answers every ping. *)
Definition okDriver : config.Driver unit :=
  {| config.onOpen := fun _ _ w => (Ok 7, w);
     config.onPing := fun _ w => (None, w) |}.

(** A backend refusing every statement and query with the given error. *)
Definition failingBackend (e : error) : Backend unit :=
  {| onExec := fun _ _ _ w => (Fail e, w);
     onQuery := fun _ _ _ w => (Fail e, w) |}.

(** A field declared the conventional way: its tag is the [db] key with
    the quoted value [<column>] or [<column>,primary]. *)
Record Declared : Type := {
  dField : string;
  dType : reflect.Type_;
  dColumn : string;
  dPrimary : bool
}.

Definition fieldOf (d : Declared) : reflect.StructField :=
  reflect.MkField (dField d) (dType d)
    (tagPair "db" (dColumn d ++ (if dPrimary d then ",primary" else ""))).

(** The column name is not empty and made of plain bytes other than the
    comma, and the type is a supported one. *)
Definition declaredOk (d : Declared) : bool :=
  negb (dColumn d =? "")%string
  && allBytes strconv.plainByte (dColumn d)
  && allBytes notComma (dColumn d)
  && match semantic (reflect.Kind_of (dType d)) with
     | Some _ => true
     | None => false
     end.

(** The column definition such a field asks for. *)
Definition columnOf (d : Declared) : ColumnDef :=
  {| column := dColumn d;
     storageType :=
       match semantic (reflect.Kind_of (dType d)) with
       | Some sem => storageToken sem
       | None => ""
       end;
     primary := dPrimary d |}.

(** The shape of every run of a [GetAll], told from the answer [r] of the
    backend to the query. *)
Definition GetAllShape {W : Type} (db : sql.DB) (r : res sql.Rows * W)
           (x : Outcome (list models.User * option error) * list Event * W)
  : Prop :=
  match fst r with
  | Fail e =>
      x = (Returned ([], Some ("failed to query users: " ++ e)),
           [EvQuery db "SELECT id, name FROM users" []],
           snd r)
  | Ok _ =>
      exists users err,
        x = (Returned (users, err),
             [EvQuery db "SELECT id, name FROM users" []; EvClose db],
             snd r)
        /\ (err <> None -> users = [])
  end.

(** What a run [x] of a connection constructor for the driver
    [driverName] looks like, told from the answers of the driver. *)
Definition ConnectionShape {W : Type} (D : config.Driver W)
           (driverName : string) (w : W)
           (x : (option sql.DB * option error) * list config.DialEvent * W)
  : Prop :=
  exists dsn : string,
    match config.onOpen D driverName dsn w with
    | (Fail e, w1) =>
        x = ((None, Some ("failed to open database: " ++ e)),
             [config.EvOpen driverName dsn], w1)
    | (Ok db, w1) =>
        match config.onPing D db w1 with
        | (Some e, w2) =>
            x = ((None, Some ("failed to ping database: " ++ e)),
                 [config.EvOpen driverName dsn; config.EvPing db], w2)
        | (None, w2) =>
            x = ((Some db, None),
                 [config.EvOpen driverName dsn; config.EvPing db], w2)
        end
    end.






(** [s] without its first [n] bytes. *)
Fixpoint dropBytes (n : nat) (s : string) : string :=
  match n, s with
  | O, _ => s
  | S _, EmptyString => EmptyString
  | S n', String _ s' => dropBytes n' s'
  end.

(** [s] up to its first space. *)
Fixpoint untilSpace (s : string) : string :=
  match s with
  | EmptyString => EmptyString
  | String c s' => if (c =? " ")%char then EmptyString else String c (untilSpace s')
  end.

(** A backend that keeps the names of its tables and treats the two forms
    of CREATE TABLE as SQL does: with IF NOT EXISTS an existing table is
    left alone, without it an existing table is an error. *)
Definition catalogBackend : Backend (list string) :=
  {| onExec := fun _ q _ catalog =>
       if String.prefix "CREATE TABLE IF NOT EXISTS " q then
         let table :=
           untilSpace (dropBytes (String.length "CREATE TABLE IF NOT EXISTS ") q) in
         if existsb (String.eqb table) catalog
         then (Ok (insertResult 0), catalog)
         else (Ok (insertResult 0), table :: catalog)
       else if String.prefix "CREATE TABLE " q then
         let table := untilSpace (dropBytes (String.length "CREATE TABLE ") q) in
         if existsb (String.eqb table) catalog
         then (Fail ("relation " ++ table ++ " already exists"), catalog)
         else (Ok (insertResult 0), table :: catalog)
       else (Ok (insertResult 1), catalog);
     onQuery := fun _ _ _ catalog =>
       (Ok {| sql.scans := []; sql.Err := None |}, catalog) |}.



(** * Properties *)

(** ** Helper lemmas *)

Lemma bindGo_Return {A B : Type} (a : A) (f : A -> Go B) :
  bindGo (Return a) f = f a.
Proof. reflexivity. Qed.

Lemma bindGo_Panic {A B : Type} (msg : string) (f : A -> Go B) :
  bindGo (Panic msg) f = Panic msg.
Proof. reflexivity. Qed.

Lemma run_Panic {W A : Type} (B : Backend W) (msg : string) (w : W) :
  run B (@Panic A msg) w = (Panicked msg, [], w).
Proof. reflexivity. Qed.

Lemma append_nil_r (s : string) : s ++ "" = s.
Proof. induction s as [|c s IH]; simpl; [reflexivity | now rewrite IH]. Qed.

Lemma append_assoc (a b c : string) : (a ++ b) ++ c = a ++ b ++ c.
Proof. induction a as [|x a IH]; simpl; [reflexivity | now rewrite IH]. Qed.

Lemma Split_nonempty (s : string) (sep : ascii) : strings.Split s sep <> [].
Proof.
  unfold strings.Split. generalize EmptyString as cur.
  induction s as [|c s IH]; intros cur; simpl.
  - discriminate.
  - destruct (c =? sep)%char; [discriminate | apply IH].
Qed.

Lemma goTypeToPostgres_semantic (t : reflect.Type_) :
  repository.PostgresRepo.goTypeToPostgres t =
  match semantic (reflect.Kind_of t) with
  | Some sem => Return (storageToken sem)
  | None => Panic ("unsupported type: " ++ reflect.String_ t)
  end.
Proof.
  unfold repository.PostgresRepo.goTypeToPostgres.
  destruct (reflect.Kind_of t); reflexivity.
Qed.

(** ** The fuel of [Lookup] is enough *)

Lemma skipSpaces_length (tag : string) :
  String.length (reflect.skipSpaces tag) <= String.length tag.
Proof.
  induction tag as [|c tag IH]; simpl; [lia |].
  destruct (c =? " ")%char; simpl; lia.
Qed.

Lemma scanKey_length (tag : string) :
  String.length (snd (reflect.scanKey tag)) <= String.length tag.
Proof.
  induction tag as [|c tag IH]; simpl; [lia |].
  destruct (reflect.keyByte c); [| simpl; lia].
  destruct (reflect.scanKey tag) as [k r]; simpl in *; lia.
Qed.

Lemma scanQuoted_length (n : nat) :
  forall s v r,
    String.length s <= n ->
    reflect.scanQuoted s = Some (v, r) ->
    String.length r < String.length s.
Proof.
  induction n as [|n IH]; intros s v r Hlen Hscan.
  - destruct s; [discriminate | simpl in Hlen; lia].
  - destruct s as [|c s1]; [discriminate |].
    cbn [reflect.scanQuoted] in Hscan. simpl in Hlen.
    destruct (c =? dquote)%char.
    { inversion Hscan; subst. simpl; lia. }
    destruct (c =? backslash)%char.
    + destruct s1 as [|c2 s2]; [discriminate |].
      destruct (reflect.scanQuoted s2) as [[v' r']|] eqn:Hrec; [| discriminate].
      inversion Hscan; subst. simpl in Hlen.
      assert (String.length r < String.length s2)
        by (apply (IH s2 v' r); [lia | exact Hrec]).
      simpl; lia.
    + destruct (reflect.scanQuoted s1) as [[v' r']|] eqn:Hrec; [| discriminate].
      inversion Hscan; subst.
      assert (String.length r < String.length s1)
        by (apply (IH s1 v' r); [lia | exact Hrec]).
      simpl; lia.
Qed.

(** Two supplies of fuel above the length of the tag give the same
    result: the loop of [Lookup] never stops for lack of fuel. *)
Lemma LookupLoop_fuel {L : GoStdlib} (key : string) (n : nat) :
  forall (m : nat) (tag : string),
    String.length tag < n -> String.length tag < m ->
    reflect.LookupLoop n tag key = reflect.LookupLoop m tag key.
Proof.
  induction n as [|n IH]; intros m tag Hn Hm; [lia |].
  destruct m as [|m]; [lia |].
  cbn [reflect.LookupLoop].
  pose proof (skipSpaces_length tag) as Hskip.
  destruct (reflect.skipSpaces tag) as [|c tag1]; [reflexivity |].
  pose proof (scanKey_length (String c tag1)) as Hkey.
  destruct (reflect.scanKey (String c tag1)) as [name rest].
  destruct name as [|k name]; [reflexivity |].
  destruct rest as [|c0 [|c1 rest']]; try reflexivity.
  destruct ((c0 =? ":") && (c1 =? dquote))%char; [| reflexivity].
  destruct (reflect.scanQuoted rest') as [[body tag2]|] eqn:Hq; [| reflexivity].
  destruct (key =? String k name)%string; [reflexivity |].
  pose proof (scanQuoted_length _ _ _ _ (le_n _) Hq) as Hlt.
  cbn [snd String.length] in Hkey, Hskip.
  apply IH; lia.
Qed.

Lemma Lookup_fuel {L : GoStdlib} (tag key : string) (n : nat) :
  String.length tag < n ->
  reflect.LookupLoop n tag key = reflect.Lookup tag key.
Proof.
  intros Hn. unfold reflect.Lookup. apply LookupLoop_fuel; lia.
Qed.

(** The loop of [AutoMigrate] computes the rendered columns of
    [DeriveColumns], appended to those collected so far, and panics
    exactly when the derivation fails. *)
Lemma AutoMigrate_loop_DeriveColumns {L : GoStdlib}
      (fields : list reflect.StructField) (columns : list string) :
  match DeriveColumns fields with
  | Some cols =>
      repository.PostgresRepo.AutoMigrate_loop fields columns
      = Return (columns ++ map renderColumn cols)%list
  | None =>
      exists msg, repository.PostgresRepo.AutoMigrate_loop fields columns
                  = Panic msg
  end.
Proof.
  revert columns.
  induction fields as [|f rest IH]; intros columns;
    cbn [repository.PostgresRepo.AutoMigrate_loop DeriveColumns].
  - cbn. now rewrite app_nil_r.
  - unfold storageMetadata.
    destruct (reflect.Get (reflect.Tag f) "db" =? "")%string; [apply IH |].
    pose proof (Split_nonempty (reflect.Get (reflect.Tag f) "db") ",") as Hne.
    destruct (strings.Split (reflect.Get (reflect.Tag f) "db") ",")
      as [|col more] eqn:Hparts; [congruence |].
    rewrite goTypeToPostgres_semantic. cbn [hd].
    destruct (semantic (reflect.Kind_of (reflect.FieldType f))) as [sem|].
    + cbn [bind Monad_Go]. rewrite bindGo_Return.
      specialize (IH (columns ++
        [renderColumn {| column := col; storageType := storageToken sem;
                         primary := (nth 1 (col :: more) "" =? "primary")%string |}])%list).
      assert (Hdef :
        (if (1 <? length (col :: more))%nat
            && (nth 1 (col :: more) "" =? "primary")%string
         then (col ++ " " ++ storageToken sem) ++ " PRIMARY KEY"
         else col ++ " " ++ storageToken sem)
        = renderColumn {| column := col; storageType := storageToken sem;
                          primary := (nth 1 (col :: more) "" =? "primary")%string |}).
      { unfold renderColumn; cbn [column storageType primary].
        destruct more as [|q more']; cbn [length nth Nat.ltb Nat.leb andb].
        - cbn [String.eqb]. now rewrite !append_nil_r.
        - destruct (q =? "primary")%string.
          + now rewrite !append_assoc.
          + now rewrite !append_nil_r. }
      rewrite Hdef.
      destruct (DeriveColumns rest) as [cols|].
      * rewrite IH. cbn [map]. now rewrite <- app_assoc.
      * exact IH.
    + cbn [bind Monad_Go]. rewrite bindGo_Panic. eexists; reflexivity.
Qed.

Lemma DeriveColumns_unsupported {L : GoStdlib}
      (fields : list reflect.StructField) (f : reflect.StructField) :
  In f fields ->
  storageMetadata f <> None ->
  semantic (reflect.Kind_of (reflect.FieldType f)) = None ->
  DeriveColumns fields = None.
Proof.
  intros Hin Hmeta Hsem.
  induction fields as [|g rest IH]; [destruct Hin |].
  cbn [DeriveColumns].
  destruct Hin as [-> | Hin].
  - destruct (storageMetadata f) as [[col pk]|]; [| congruence].
    now rewrite Hsem.
  - rewrite (IH Hin).
    destruct (storageMetadata g) as [[col pk]|]; [| reflexivity].
    now destruct (semantic (reflect.Kind_of (reflect.FieldType g))).
Qed.

(** For a non-nil model that is not a struct, [AutoMigrate] returns the
    error and sends nothing. *)
Lemma AutoMigrate_non_struct {L : GoStdlib}
      (p : repository.PostgresRepo.t) (ty : reflect.Type_) :
  reflect.Kind_of ty <> reflect.KStruct ->
  repository.PostgresRepo.AutoMigrate p (Some ty)
  = Return (Some "model must be a struct").
Proof.
  intros Hk. unfold repository.PostgresRepo.AutoMigrate.
  destruct (reflect.Kind_eq_dec (reflect.Kind_of ty) reflect.KStruct);
    [contradiction | reflexivity].
Qed.

(** ** The schema translator *)


(** C2, as the code has it: on a type outside the supported set
    [goTypeToPostgres] returns no error value, it panics with the message
    naming the type; [AutoMigrate] does not recover, so for a struct with
    such a field among those that declare a column the panic reaches the
    caller before any statement is sent. *)
Theorem goTypeToPostgres_unsupported_panics {L : GoStdlib}
        (t : reflect.Type_)
        (Hsem : semantic (reflect.Kind_of t) = None) :
  repository.PostgresRepo.goTypeToPostgres t
  = Panic ("unsupported type: " ++ reflect.String_ t)
  /\ forall (p : repository.PostgresRepo.t) (ty : reflect.Type_)
            (f : reflect.StructField),
       reflect.Kind_of ty = reflect.KStruct ->
       In f (reflect.Fields ty) ->
       reflect.FieldType f = t ->
       storageMetadata f <> None ->
       exists msg : string,
         forall (W : Type) (B : Backend W) (w : W),
           run B (repository.PostgresRepo.AutoMigrate p (Some ty)) w
           = (Panicked msg, [], w).
Proof.
  split.
  - now rewrite goTypeToPostgres_semantic, Hsem.
  - intros p ty f Hk Hin Hty Hmeta. subst t.
    pose proof (AutoMigrate_loop_DeriveColumns (reflect.Fields ty) []) as Hloop.
    rewrite (DeriveColumns_unsupported _ f Hin Hmeta Hsem) in Hloop.
    destruct Hloop as [msg Hmsg]. exists msg. intros W B w.
    unfold repository.PostgresRepo.AutoMigrate.
    destruct (reflect.Kind_eq_dec (reflect.Kind_of ty) reflect.KStruct);
      [| contradiction].
    cbn [bind Monad_Go]. rewrite Hmsg. reflexivity.
Qed.

(** C4 at the nil model: [reflect.TypeOf] yields nil and the call of [Kind]
    on it panics, so no error is returned; nothing is sent either. *)
Theorem AutoMigrate_nil_model_panics {L : GoStdlib}
        (p : repository.PostgresRepo.t)
        (W : Type) (B : Backend W) (w : W) :
  run B (repository.PostgresRepo.AutoMigrate p None) w
  = (Panicked nil_dereference, [], w).
Proof. reflexivity. Qed.

(** C1 on the code: the tag of [ID] is not a well-formed key:"value" pair,
    so [Get] finds no [db] key on it and the field is skipped; the
    migration of [models.User] has the single column [name TEXT], no [id]
    column and no primary key. *)
Theorem AutoMigrate_User_columns {L : GoStdlib} (p : repository.PostgresRepo.t) :
  reflect.Get models.ID_tag "db" = ""
  /\ repository.PostgresRepo.AutoMigrate_loop (reflect.Fields models.User_type) []
     = Return ["name TEXT"]
  /\ repository.PostgresRepo.AutoMigrate p (Some models.User_type)
     = Exec (repository.PostgresRepo.db p) User_DDL []
            (fun r => Return (err_of r)).
Proof. repeat split. Qed.

(** ** Construction of the repositories *)

(** C3, as the code has it: the construction of the PostgreSQL repository
    sends the schema statement exactly once and nothing else, returns the
    handle when the backend accepts it and the backend's error without a
    handle otherwise; the construction of the MySQL repository sends
    nothing and always returns a handle. *)
Theorem construct_schema_application {L : GoStdlib}
        (db : sql.DB) (W : Type) (B : Backend W) (w : W) :
  repository.NewPostgresRepo db
  = Exec db User_DDL []
         (fun r =>
            match err_of r with
            | Some e => Return (None, Some e)
            | None => Return (Some {| repository.PostgresRepo.db := db |}, None)
            end)
  /\ run B (construct PostgreSQL db) w
  = (Returned
       match fst (onExec B db User_DDL [] w) with
       | Ok _ =>
           (Some (repository.PostgresRepo.asUserRepository
                    {| repository.PostgresRepo.db := db |}), None)
       | Fail e => (None, Some e)
       end,
     [EvExec db User_DDL []],
     snd (onExec B db User_DDL [] w))
  /\ schemaApplications (trace (run B (construct PostgreSQL db) w)) = 1
  /\ run B (construct MySQL db) w
     = (Returned
          (Some (repository.MySQLRepo.asUserRepository
                   {| repository.MySQLRepo.db := db |}), None),
        [], w).
Proof.
  assert (Hrun :
    run B (construct PostgreSQL db) w
    = (Returned
         match fst (onExec B db User_DDL [] w) with
         | Ok _ =>
             (Some (repository.PostgresRepo.asUserRepository
                      {| repository.PostgresRepo.db := db |}), None)
         | Fail e => (None, Some e)
         end,
       [EvExec db User_DDL []],
       snd (onExec B db User_DDL [] w))).
  { cbn. change (String "C" _) with User_DDL.
    destruct (onExec B db User_DDL [] w) as [[result | e] w1]; reflexivity. }
  split; [reflexivity |].
  split; [exact Hrun |]. split; [| reflexivity].
  rewrite Hrun. reflexivity.
Qed.

(** ** Listing *)

Lemma scanLoop_failure (rows : list (res (Z * string))) :
  (exists e, In (Fail e) rows) ->
  forall users : list models.User,
  exists e0, In (Fail e0) rows
             /\ repository.scanLoop rows users
                = Fail ("failed to scan user: " ++ e0).
Proof.
  intros [e Hin].
  induction rows as [|r rest IH]; [destruct Hin |].
  intros users. destruct r as [[id name] | e1].
  - destruct Hin as [Hr | Hin]; [discriminate |].
    destruct (IH Hin (users ++ [ {| models.ID := id; models.Name := name |} ])%list)
      as [e0 [Hin0 Heq]].
    exists e0. split; [now right | exact Heq].
  - exists e1. split; [now left | reflexivity].
Qed.

(** C8: when the backend answers the listing with rows of which one fails
    to decode, both [GetAll]s return the decoding error of the first such
    row and no record at all. *)
Theorem GetAll_decode_failure
        (p : repository.PostgresRepo.t) (m : repository.MySQLRepo.t)
        (W : Type) (B : Backend W) (w w1 w2 : W) (rows : sql.Rows)
        (Hpg : onQuery B (repository.PostgresRepo.db p)
                       "SELECT id, name FROM users" [] w = (Ok rows, w1))
        (Hmy : onQuery B (repository.MySQLRepo.db m)
                       "SELECT id, name FROM users" [] w = (Ok rows, w2))
        (Hbad : exists e, In (Fail e) (sql.scans rows)) :
  exists e0 : error,
    In (Fail e0) (sql.scans rows)
    /\ outcome (run B (repository.PostgresRepo.GetAll p) w)
       = Returned ([], Some ("failed to scan user: " ++ e0))
    /\ outcome (run B (repository.MySQLRepo.GetAll m) w)
       = Returned ([], Some ("failed to scan user: " ++ e0)).
Proof.
  destruct (scanLoop_failure (sql.scans rows) Hbad []) as [e0 [Hin Hscan]].
  exists e0. split; [exact Hin |].
  unfold repository.PostgresRepo.GetAll, repository.MySQLRepo.GetAll.
  cbn [bind Monad_Go ret db_Query rows_Close bindGo run].
  rewrite Hpg, Hmy. cbn [bindGo run]. rewrite Hscan.
  split; reflexivity.
Qed.

(** ** The two backends compared *)

(** C9, as the code has it: [GetAll] is the same program in both backends;
    [Create] returns the same result in both whenever the backend answers
    the two INSERT statements alike and, on success, reports the affected
    rows.  (The PostgreSQL [Create] reads the affected rows and prints
    their number, the MySQL one does neither.) *)
Theorem Create_GetAll_backends_agree
        (db : sql.DB) (user : models.User)
        (W : Type) (B : Backend W) (w : W)
        (Hsame : onExec B db "INSERT INTO users (name) VALUES ($1)"
                        [sql.VString (models.Name user)] w
                 = onExec B db "INSERT INTO users (name) VALUES (?)"
                          [sql.VString (models.Name user)] w)
        (Hcount : forall result e,
            fst (onExec B db "INSERT INTO users (name) VALUES ($1)"
                        [sql.VString (models.Name user)] w) = Ok result ->
            sql.RowsAffected result <> Fail e) :
  repository.PostgresRepo.GetAll {| repository.PostgresRepo.db := db |}
  = repository.MySQLRepo.GetAll {| repository.MySQLRepo.db := db |}
  /\ outcome (run B (repository.PostgresRepo.Create
                       {| repository.PostgresRepo.db := db |} user) w)
     = outcome (run B (repository.MySQLRepo.Create
                         {| repository.MySQLRepo.db := db |} user) w).
Proof.
  split; [reflexivity |].
  unfold repository.PostgresRepo.Create, repository.MySQLRepo.Create.
  cbn [bind Monad_Go ret db_Exec bindGo run
       repository.PostgresRepo.db repository.MySQLRepo.db].
  rewrite <- Hsame.
  destruct (onExec B db "INSERT INTO users (name) VALUES ($1)"
                   [sql.VString (models.Name user)] w) as [[result | e] w1].
  - cbn [fst] in Hcount.
    destruct (sql.RowsAffected result) as [n | e] eqn:Hrows.
    + reflexivity.
    + exfalso. exact (Hcount result e eq_refl Hrows).
  - reflexivity.
Qed.

(** C10: what [Create] sends is the fixed statement of its backend with the
    name as only argument, so two records with the same name give the same
    program whatever their identifiers; and for a non-empty name
    [RegisterUser] hands [Create] the record with identifier zero. *)
Theorem Create_depends_on_Name_only
        (p : repository.PostgresRepo.t) (m : repository.MySQLRepo.t)
        (u1 u2 : models.User)
        (Hname : models.Name u1 = models.Name u2) :
  repository.PostgresRepo.Create p u1 = repository.PostgresRepo.Create p u2
  /\ repository.MySQLRepo.Create m u1 = repository.MySQLRepo.Create m u2
  /\ (exists k, repository.PostgresRepo.Create p u1
                = Exec (repository.PostgresRepo.db p)
                       "INSERT INTO users (name) VALUES ($1)"
                       [sql.VString (models.Name u1)] k)
  /\ (exists k, repository.MySQLRepo.Create m u1
                = Exec (repository.MySQLRepo.db m)
                       "INSERT INTO users (name) VALUES (?)"
                       [sql.VString (models.Name u1)] k)
  /\ forall (s : service.UserService) (name : string),
       name <> "" ->
       exists k,
         service.RegisterUser s name
         = bindGo (repository.Create (service.repo s)
                     {| models.ID := 0%Z; models.Name := name |}) k.
Proof.
  unfold repository.PostgresRepo.Create, repository.MySQLRepo.Create.
  rewrite Hname.
  split; [reflexivity |]. split; [reflexivity |].
  split; [eexists; reflexivity |]. split; [eexists; reflexivity |].
  intros s name Hne. unfold service.RegisterUser.
  destruct (String.eqb_spec name ""); [contradiction |].
  eexists; reflexivity.
Qed.

(** ** The user service *)

(** C7: on the empty name [RegisterUser] is the validation error and
    nothing else, whatever the repository, so no run of it sends anything;
    on a non-empty name it is the repository's [Create] on the new record,
    followed by the wrapping of its error. *)
Theorem RegisterUser_validation
        (s : service.UserService) (name : string)
        (Hname : name <> "") :
  service.RegisterUser s "" = Return (Some "user name cannot be empty")
  /\ (forall (W : Type) (B : Backend W) (w : W),
        run B (service.RegisterUser s "") w
        = (Returned (Some "user name cannot be empty"), [], w)
        /\ storageOperations (trace (run B (service.RegisterUser s "") w)) = 0)
  /\ service.RegisterUser s name
     = bindGo (repository.Create (service.repo s)
                 {| models.ID := 0%Z; models.Name := name |})
              (fun err =>
                 match err with
                 | Some e => Return (Some ("failed to register user: " ++ e))
                 | None => Return None
                 end).
Proof.
  split; [reflexivity |]. split; [intros W B w; split; reflexivity |].
  unfold service.RegisterUser.
  destruct (String.eqb_spec name ""); [contradiction | reflexivity].
Qed.

(** ** Instances and counterexamples *)


(** The claim C2 read on the code: some unsupported type does panic. *)
Lemma goTypeToPostgres_never_panics_counterexample :
  ~ (forall t : reflect.Type_,
        semantic (reflect.Kind_of t) = None ->
        forall msg : string,
          repository.PostgresRepo.goTypeToPostgres t <> Panic msg).
Proof.
  intros H. exact (H bool_type eq_refl "unsupported type: bool" eq_refl).
Qed.

Lemma goTypeToPostgres_unsupported_panics_witness :
  repository.PostgresRepo.goTypeToPostgres bool_type
  = Panic "unsupported type: bool"
  /\ exists msg : string,
       run emptyBackend
           (repository.PostgresRepo.AutoMigrate (L := plainStdlib)
              {| repository.PostgresRepo.db := 0 |} (Some Flagged_type)) tt
       = (Panicked msg, [], tt).
Proof.
  destruct (goTypeToPostgres_unsupported_panics (L := plainStdlib)
              bool_type eq_refl) as [Hpanic Hescapes].
  split; [exact Hpanic |].
  destruct (Hescapes {| repository.PostgresRepo.db := 0 |} Flagged_type
              (reflect.MkField "Active" bool_type
                 ("db:" ++ String dquote ("active" ++ String dquote EmptyString)))
              eq_refl (or_introl eq_refl) eq_refl)
    as [msg Hrun].
  - discriminate.
  - exists msg. exact (Hrun unit emptyBackend tt).
Defined.

(** The claim C3 read on the code: constructing the MySQL repository
    applies no schema. *)
Lemma construct_MySQL_counterexample :
  ~ (forall kind : BackendKind,
        schemaApplications
          (trace (run emptyBackend (construct (L := plainStdlib) kind 0) tt)) = 1).
Proof. intros H. specialize (H MySQL). discriminate H. Qed.

Lemma RegisterUser_validation_witness :
  trace (run emptyBackend
             (service.RegisterUser (service.NewUserService spyRepository) "") tt)
  = []
  /\ trace (run emptyBackend
                (service.RegisterUser (service.NewUserService spyRepository) "Alice")
                tt)
     = [EvExec 0 "spy.Create" [sql.VInt 0; sql.VString "Alice"]].
Proof.
  destruct (RegisterUser_validation (service.NewUserService spyRepository) "Alice")
    as [_ [Hempty Hdelegates]].
  - discriminate.
  - split.
    + now rewrite (proj1 (Hempty unit emptyBackend tt)).
    + rewrite Hdelegates. reflexivity.
Defined.

Lemma GetAll_decode_failure_witness :
  exists e0 : error,
    outcome (run (rowsBackend
                    {| sql.scans := [Ok (1%Z, "Alice"); Fail "unsupported Scan";
                                     Ok (3%Z, "Carol")];
                       sql.Err := None |})
                 (repository.PostgresRepo.GetAll {| repository.PostgresRepo.db := 0 |})
                 tt)
    = Returned ([], Some ("failed to scan user: " ++ e0))
    /\ outcome (run (rowsBackend
                       {| sql.scans := [Ok (1%Z, "Alice"); Fail "unsupported Scan";
                                        Ok (3%Z, "Carol")];
                          sql.Err := None |})
                    (repository.MySQLRepo.GetAll {| repository.MySQLRepo.db := 0 |})
                    tt)
       = Returned ([], Some ("failed to scan user: " ++ e0)).
Proof.
  destruct (GetAll_decode_failure
              {| repository.PostgresRepo.db := 0 |}
              {| repository.MySQLRepo.db := 0 |}
              unit
              (rowsBackend
                 {| sql.scans := [Ok (1%Z, "Alice"); Fail "unsupported Scan";
                                  Ok (3%Z, "Carol")];
                    sql.Err := None |})
              tt tt tt
              {| sql.scans := [Ok (1%Z, "Alice"); Fail "unsupported Scan";
                               Ok (3%Z, "Carol")];
                 sql.Err := None |}
              eq_refl eq_refl
              (ex_intro _ "unsupported Scan" (or_intror (or_introl eq_refl))))
    as [e0 [_ Hboth]].
  exists e0. exact Hboth.
Defined.

(** The claim C9 read on the code: on a result that does not report the
    affected rows the two [Create]s disagree. *)
Lemma Create_backends_counterexample :
  ~ (forall (W : Type) (B : Backend W) (w : W) (db : sql.DB) (user : models.User),
        outcome (run B (repository.PostgresRepo.Create
                          {| repository.PostgresRepo.db := db |} user) w)
        = outcome (run B (repository.MySQLRepo.Create
                            {| repository.MySQLRepo.db := db |} user) w)).
Proof.
  intros H.
  specialize (H unit noRowCountBackend tt 0
                {| models.ID := 0%Z; models.Name := "Alice" |}).
  discriminate H.
Qed.

Lemma Create_GetAll_backends_agree_witness :
  outcome (run emptyBackend
               (repository.PostgresRepo.Create
                  {| repository.PostgresRepo.db := 0 |}
                  {| models.ID := 0%Z; models.Name := "Alice" |}) tt)
  = outcome (run emptyBackend
                 (repository.MySQLRepo.Create
                    {| repository.MySQLRepo.db := 0 |}
                    {| models.ID := 0%Z; models.Name := "Alice" |}) tt).
Proof.
  refine (proj2 (Create_GetAll_backends_agree 0
                   {| models.ID := 0%Z; models.Name := "Alice" |}
                   unit emptyBackend tt eq_refl _)).
  intros result e Hres Hrows. cbn in Hres.
  injection Hres as <-. discriminate Hrows.
Defined.

Lemma Create_depends_on_Name_only_witness :
  repository.PostgresRepo.Create {| repository.PostgresRepo.db := 0 |}
    {| models.ID := 1%Z; models.Name := "Alice" |}
  = repository.PostgresRepo.Create {| repository.PostgresRepo.db := 0 |}
      {| models.ID := 2%Z; models.Name := "Alice" |}
  /\ repository.MySQLRepo.Create {| repository.MySQLRepo.db := 0 |}
       {| models.ID := 1%Z; models.Name := "Alice" |}
     = repository.MySQLRepo.Create {| repository.MySQLRepo.db := 0 |}
         {| models.ID := 2%Z; models.Name := "Alice" |}.
Proof.
  destruct (Create_depends_on_Name_only
              {| repository.PostgresRepo.db := 0 |}
              {| repository.MySQLRepo.db := 0 |}
              {| models.ID := 1%Z; models.Name := "Alice" |}
              {| models.ID := 2%Z; models.Name := "Alice" |}
              eq_refl)
    as [Hpg [Hmy _]].
  split; [exact Hpg | exact Hmy].
Defined.

(** * Further properties of the code *)

(** ** Struct tags *)

Lemma keyByte_not_space (c : ascii) :
  reflect.keyByte c = true -> (c =? " ")%char = false.
Proof.
  intros Hk. destruct (Ascii.eqb_spec c " ") as [-> | _];
    [discriminate Hk | reflexivity].
Qed.

Lemma skipSpaces_key (c : ascii) (s : string) :
  reflect.keyByte c = true ->
  reflect.skipSpaces (String c s) = String c s.
Proof.
  intros Hk. cbn [reflect.skipSpaces]. now rewrite (keyByte_not_space c Hk).
Qed.

Lemma scanKey_colon (key r : string) :
  allBytes reflect.keyByte key = true ->
  reflect.scanKey (key ++ String ":" r) = (key, String ":" r).
Proof.
  induction key as [|c key IH]; intros Hall.
  - reflexivity.
  - cbn [allBytes] in Hall. apply andb_prop in Hall as [Hc Hrest].
    cbn [append reflect.scanKey]. rewrite Hc, (IH Hrest). reflexivity.
Qed.

Lemma scanQuoted_closing (v tail : string) :
  allBytes notQuoteNorBackslash v = true ->
  reflect.scanQuoted (v ++ String dquote tail) = Some (v, tail).
Proof.
  induction v as [|c v IH]; intros Hall.
  - reflexivity.
  - cbn [allBytes] in Hall. apply andb_prop in Hall as [Hc Hrest].
    unfold notQuoteNorBackslash in Hc. apply andb_prop in Hc as [Hq Hb].
    apply negb_true_iff in Hq, Hb.
    cbn [append reflect.scanQuoted]. rewrite Hq, Hb, (IH Hrest). reflexivity.
Qed.

Lemma plainBody_plain (v : string) :
  allBytes strconv.plainByte v = true ->
  strconv.plainBody (v ++ String dquote EmptyString) = Some v.
Proof.
  induction v as [|c v IH]; intros Hall.
  - reflexivity.
  - cbn [allBytes] in Hall. apply andb_prop in Hall as [Hc Hrest].
    assert (Hq : (c =? dquote)%char = false).
    { unfold strconv.plainByte in Hc.
      apply andb_prop in Hc as [Hc _]. apply andb_prop in Hc as [_ Hc].
      now apply negb_true_iff in Hc. }
    cbn [append strconv.plainBody]. rewrite Hq, Hc, (IH Hrest). reflexivity.
Qed.

Lemma plain_notQuoteNorBackslash (v : string) :
  allBytes strconv.plainByte v = true ->
  allBytes notQuoteNorBackslash v = true.
Proof.
  induction v as [|c v IH]; intros Hall; [reflexivity |].
  cbn [allBytes] in *. apply andb_prop in Hall as [Hc Hrest].
  rewrite (IH Hrest), andb_true_r.
  unfold strconv.plainByte in Hc. unfold notQuoteNorBackslash.
  apply andb_prop in Hc as [Hc _]. apply andb_prop in Hc as [Hc Hq].
  apply andb_prop in Hc as [Hb _]. now rewrite Hb, Hq.
Qed.

Lemma tagPair_append (key v tail : string) :
  tagPair key v ++ tail
  = key ++ String ":" (String dquote (v ++ String dquote tail)).
Proof.
  unfold tagPair, quoted. rewrite append_assoc. cbn [append].
  now rewrite append_assoc.
Qed.

Lemma length_append (a b : string) :
  String.length (a ++ b) = String.length a + String.length b.
Proof. induction a as [|c a IH]; cbn; [reflexivity | now rewrite IH]. Qed.

(** One turn of the loop of [Lookup] on a tag that starts with a
    well-formed pair. *)
Lemma LookupLoop_pair {L : GoStdlib} (n : nat) (key1 v1 tail key : string) :
  key1 <> "" ->
  allBytes reflect.keyByte key1 = true ->
  allBytes notQuoteNorBackslash v1 = true ->
  reflect.LookupLoop (S n) (tagPair key1 v1 ++ tail) key
  = if (key =? key1)%string then
      match strconv.Unquote (quoted v1) with
      | Some value => (value, true)
      | None => (EmptyString, false)
      end
    else reflect.LookupLoop n tail key.
Proof.
  intros Hne Hkey Hv. rewrite tagPair_append.
  destruct key1 as [|c k]; [congruence |].
  pose proof (scanKey_colon (String c k)
                (String dquote (v1 ++ String dquote tail)) Hkey) as Hscan.
  cbn [allBytes] in Hkey. apply andb_prop in Hkey as [Hc _].
  cbn [append] in Hscan |- *. cbn [reflect.LookupLoop].
  rewrite (skipSpaces_key c _ Hc), Hscan.
  change ((":" =? ":")%char && (dquote =? dquote)%char) with true.
  cbv iota. rewrite (scanQuoted_closing v1 tail Hv).
  reflexivity.
Qed.

Lemma Lookup_finds_pair {L : GoStdlib} (key v tail : string) :
  key <> "" ->
  allBytes reflect.keyByte key = true ->
  allBytes strconv.plainByte v = true ->
  reflect.Lookup (tagPair key v ++ tail) key = (v, true).
Proof.
  intros Hne Hkey Hv. unfold reflect.Lookup.
  rewrite (LookupLoop_pair _ key v tail key Hne Hkey
             (plain_notQuoteNorBackslash v Hv)).
  rewrite String.eqb_refl. unfold strconv.Unquote, quoted.
  change ((dquote =? dquote)%char) with true. cbv iota.
  now rewrite (plainBody_plain v Hv).
Qed.

Lemma Lookup_skips_pair {L : GoStdlib} (key1 v1 tail key : string) :
  key1 <> "" ->
  allBytes reflect.keyByte key1 = true ->
  allBytes notQuoteNorBackslash v1 = true ->
  key <> key1 ->
  reflect.Lookup (tagPair key1 v1 ++ tail) key = reflect.Lookup tail key.
Proof.
  intros Hne Hkey Hv Hdiff. unfold reflect.Lookup at 1.
  rewrite (LookupLoop_pair _ key1 v1 tail key Hne Hkey Hv).
  apply String.eqb_neq in Hdiff. rewrite Hdiff.
  apply Lookup_fuel. rewrite length_append. unfold tagPair, quoted.
  rewrite length_append. cbn [append String.length]. lia.
Qed.

Lemma Lookup_skips_space {L : GoStdlib} (tag key : string) :
  reflect.Lookup (String " " tag) key = reflect.Lookup tag key.
Proof.
  unfold reflect.Lookup. cbn [String.length].
  change (reflect.LookupLoop (S (S (String.length tag))) (String " " tag) key)
    with (reflect.LookupLoop (S (S (String.length tag))) tag key).
  apply LookupLoop_fuel; lia.
Qed.

Lemma Lookup_unquoted {L : GoStdlib} (key1 r key : string) :
  key1 <> "" ->
  allBytes reflect.keyByte key1 = true ->
  notStartingWith dquote r = true ->
  reflect.Lookup (key1 ++ String ":" r) key = (EmptyString, false).
Proof.
  intros Hne Hkey Hr. unfold reflect.Lookup.
  destruct key1 as [|c k]; [congruence |].
  pose proof (scanKey_colon (String c k) r Hkey) as Hscan.
  cbn [allBytes] in Hkey. apply andb_prop in Hkey as [Hc _].
  cbn [append] in Hscan |- *. cbn [reflect.LookupLoop].
  rewrite (skipSpaces_key c _ Hc), Hscan.
  destruct r as [|c1 r']; [reflexivity |].
  cbn [notStartingWith] in Hr. apply negb_true_iff in Hr.
  rewrite Hr, andb_false_r. reflexivity.
Qed.

(** ** Splitting a tag value *)

Lemma splitFrom_no_sep (sep : ascii) (s cur : string) :
  allBytes (fun c => negb (c =? sep)%char) s = true ->
  strings.splitFrom sep s cur = [cur ++ s].
Proof.
  revert cur. induction s as [|c s IH]; intros cur Hall.
  - cbn. now rewrite append_nil_r.
  - cbn [allBytes] in Hall. apply andb_prop in Hall as [Hc Hrest].
    apply negb_true_iff in Hc. cbn [strings.splitFrom]. rewrite Hc.
    rewrite (IH _ Hrest), append_assoc. reflexivity.
Qed.

Lemma splitFrom_first (sep : ascii) (s rest cur : string) :
  allBytes (fun c => negb (c =? sep)%char) s = true ->
  strings.splitFrom sep (s ++ String sep rest) cur
  = (cur ++ s) :: strings.splitFrom sep rest EmptyString.
Proof.
  revert cur. induction s as [|c s IH]; intros cur Hall.
  - cbn [append strings.splitFrom]. rewrite Ascii.eqb_refl.
    now rewrite append_nil_r.
  - cbn [allBytes] in Hall. apply andb_prop in Hall as [Hc Hrest].
    apply negb_true_iff in Hc. cbn [append strings.splitFrom]. rewrite Hc.
    rewrite (IH _ Hrest), append_assoc. reflexivity.
Qed.

(** ** The loop of the migration *)

(** The loop over two lists of fields in a row is the loop over the first
    continued by the loop over the second. *)
Lemma AutoMigrate_loop_app {L : GoStdlib}
      (l1 l2 : list reflect.StructField) (columns : list string) :
  repository.PostgresRepo.AutoMigrate_loop (l1 ++ l2) columns
  = bindGo (repository.PostgresRepo.AutoMigrate_loop l1 columns)
           (fun cols => repository.PostgresRepo.AutoMigrate_loop l2 cols).
Proof.
  revert columns. induction l1 as [|f l1 IH]; intros columns.
  - reflexivity.
  - cbn [app repository.PostgresRepo.AutoMigrate_loop].
    destruct (reflect.Get (reflect.Tag f) "db" =? "")%string; [apply IH |].
    destruct (strings.Split (reflect.Get (reflect.Tag f) "db") ",")
      as [|col more]; [reflexivity |].
    rewrite goTypeToPostgres_semantic.
    destruct (semantic (reflect.Kind_of (reflect.FieldType f))) as [sem|].
    + cbn [bind Monad_Go]. rewrite !bindGo_Return. apply IH.
    + reflexivity.
Qed.

Lemma AutoMigrate_loop_untagged {L : GoStdlib}
      (f : reflect.StructField) (rest : list reflect.StructField)
      (columns : list string) :
  reflect.Get (reflect.Tag f) "db" = "" ->
  repository.PostgresRepo.AutoMigrate_loop (f :: rest) columns
  = repository.PostgresRepo.AutoMigrate_loop rest columns.
Proof.
  intros Hget. cbn [repository.PostgresRepo.AutoMigrate_loop].
  now rewrite Hget.
Qed.

(** The loop reads of a field only its [db] tag value and its type. *)
Lemma AutoMigrate_loop_same_tag {L : GoStdlib}
      (f g : reflect.StructField) (rest : list reflect.StructField)
      (columns : list string) :
  reflect.Get (reflect.Tag f) "db" = reflect.Get (reflect.Tag g) "db" ->
  reflect.FieldType f = reflect.FieldType g ->
  repository.PostgresRepo.AutoMigrate_loop (f :: rest) columns
  = repository.PostgresRepo.AutoMigrate_loop (g :: rest) columns.
Proof.
  intros Hget Hty. cbn [repository.PostgresRepo.AutoMigrate_loop].
  now rewrite Hget, Hty.
Qed.

Lemma AutoMigrate_struct {L : GoStdlib}
      (p : repository.PostgresRepo.t) (name str : string)
      (fields : list reflect.StructField) :
  repository.PostgresRepo.AutoMigrate p
    (Some (reflect.MkType reflect.KStruct name str fields))
  = bindGo (repository.PostgresRepo.AutoMigrate_loop fields [])
           (fun columns =>
              Exec (repository.PostgresRepo.db p)
                   ("CREATE TABLE IF NOT EXISTS "
                      ++ (strings.ToLower name ++ "s") ++ " ("
                      ++ strings.Join columns ", " ++ ");")
                   [] (fun r => Return (err_of r))).
Proof. reflexivity. Qed.

(** Replacing one field by another with the same effect on the loop
    leaves the whole migration unchanged. *)
Lemma AutoMigrate_replace_fields {L : GoStdlib}
      (p : repository.PostgresRepo.t) (name str : string)
      (l1 m1 m2 l2 : list reflect.StructField) :
  (forall columns,
      repository.PostgresRepo.AutoMigrate_loop (m1 ++ l2) columns
      = repository.PostgresRepo.AutoMigrate_loop (m2 ++ l2) columns) ->
  repository.PostgresRepo.AutoMigrate p
    (Some (reflect.MkType reflect.KStruct name str (l1 ++ m1 ++ l2)))
  = repository.PostgresRepo.AutoMigrate p
      (Some (reflect.MkType reflect.KStruct name str (l1 ++ m2 ++ l2))).
Proof.
  intros Hsame. rewrite !AutoMigrate_struct.
  rewrite (AutoMigrate_loop_app l1 (m1 ++ l2)), (AutoMigrate_loop_app l1 (m2 ++ l2)).
  pose proof (AutoMigrate_loop_DeriveColumns l1 []) as Hl1.
  destruct (DeriveColumns l1) as [cols|].
  - rewrite Hl1. cbn [bindGo]. now rewrite Hsame.
  - destruct Hl1 as [msg Hl1]. now rewrite Hl1.
Qed.

(** ** Which fields the migration sees *)

(** X1: a field without a [db] tag value takes no part in the migration,
    wherever it stands among the fields and whatever its type, supported
    or not. *)
Theorem AutoMigrate_ignores_untagged_field {L : GoStdlib}
        (p : repository.PostgresRepo.t) (name str : string)
        (l1 l2 : list reflect.StructField) (f : reflect.StructField)
        (Hget : reflect.Get (reflect.Tag f) "db" = "") :
  repository.PostgresRepo.AutoMigrate p
    (Some (reflect.MkType reflect.KStruct name str (l1 ++ f :: l2)))
  = repository.PostgresRepo.AutoMigrate p
      (Some (reflect.MkType reflect.KStruct name str (l1 ++ l2))).
Proof.
  apply (AutoMigrate_replace_fields p name str l1 [f] [] l2).
  intros columns. cbn [app]. now apply AutoMigrate_loop_untagged.
Qed.

(** X2: a field whose tag has its value not in double quotes, as in
    [db:id, primary], is dropped from the migration without any error,
    whatever the key, the value and the type of the field. *)
Theorem AutoMigrate_drops_unquoted_tag {L : GoStdlib}
        (p : repository.PostgresRepo.t) (name str : string)
        (l1 l2 : list reflect.StructField)
        (fname : string) (ftype : reflect.Type_) (key value : string)
        (Hne : key <> "")
        (Hkey : allBytes reflect.keyByte key = true)
        (Hvalue : notStartingWith dquote value = true) :
  repository.PostgresRepo.AutoMigrate p
    (Some (reflect.MkType reflect.KStruct name str
             (l1 ++ reflect.MkField fname ftype (key ++ String ":" value) :: l2)))
  = repository.PostgresRepo.AutoMigrate p
      (Some (reflect.MkType reflect.KStruct name str (l1 ++ l2))).
Proof.
  apply (AutoMigrate_replace_fields p name str l1
           [reflect.MkField fname ftype (key ++ String ":" value)] [] l2).
  intros columns. cbn [app]. apply AutoMigrate_loop_untagged.
  unfold reflect.Get. cbn [reflect.Tag].
  now rewrite (Lookup_unquoted key value "db" Hne Hkey Hvalue).
Qed.

(** X3: a well-formed pair of another key in front of a field's tag,
    separated by a space, does not change the migration: the [db] value is
    looked up behind it. *)
Theorem AutoMigrate_passes_over_other_keys {L : GoStdlib}
        (p : repository.PostgresRepo.t) (name str : string)
        (l1 l2 : list reflect.StructField)
        (fname : string) (ftype : reflect.Type_) (key value tag : string)
        (Hne : key <> "")
        (Hkey : allBytes reflect.keyByte key = true)
        (Hvalue : allBytes notQuoteNorBackslash value = true)
        (Hother : key <> "db") :
  repository.PostgresRepo.AutoMigrate p
    (Some (reflect.MkType reflect.KStruct name str
             (l1 ++ reflect.MkField fname ftype
                      (tagPair key value ++ String " " tag) :: l2)))
  = repository.PostgresRepo.AutoMigrate p
      (Some (reflect.MkType reflect.KStruct name str
               (l1 ++ reflect.MkField fname ftype tag :: l2))).
Proof.
  apply (AutoMigrate_replace_fields p name str l1
           [reflect.MkField fname ftype (tagPair key value ++ String " " tag)]
           [reflect.MkField fname ftype tag] l2).
  intros columns. cbn [app]. apply AutoMigrate_loop_same_tag; [| reflexivity].
  unfold reflect.Get. cbn [reflect.Tag].
  rewrite (Lookup_skips_pair key value (String " " tag) "db" Hne Hkey Hvalue);
    [| congruence].
  now rewrite Lookup_skips_space.
Qed.

(** ** Columns of well-formed tags *)

Lemma allBytes_append (p : ascii -> bool) (a b : string) :
  allBytes p (a ++ b) = allBytes p a && allBytes p b.
Proof.
  induction a as [|c a IH]; cbn [append allBytes]; [reflexivity |].
  now rewrite IH, andb_assoc.
Qed.

Lemma Get_db_pair {L : GoStdlib} (v : string) :
  allBytes strconv.plainByte v = true ->
  reflect.Get (tagPair "db" v) "db" = v.
Proof.
  intros Hv. unfold reflect.Get.
  rewrite <- (append_nil_r (tagPair "db" v)).
  rewrite (Lookup_finds_pair "db" v ""); [reflexivity | discriminate | reflexivity | exact Hv].
Qed.

Lemma storageMetadata_fieldOf {L : GoStdlib} (d : Declared) :
  declaredOk d = true ->
  storageMetadata (fieldOf d) = Some (dColumn d, dPrimary d).
Proof.
  unfold declaredOk. intros Hok.
  apply andb_prop in Hok as [Hok _]. apply andb_prop in Hok as [Hok Hcomma].
  apply andb_prop in Hok as [Hne Hplain]. apply negb_true_iff in Hne.
  unfold storageMetadata, fieldOf. cbn [reflect.Tag].
  rewrite Get_db_pair.
  - destruct (dPrimary d).
    + assert (Hv : (dColumn d ++ ",primary" =? "")%string = false).
      { destruct (dColumn d); [discriminate Hne | reflexivity]. }
      rewrite Hv. unfold strings.Split.
      change (dColumn d ++ ",primary") with (dColumn d ++ String "," "primary").
      rewrite (splitFrom_first "," (dColumn d) "primary" "" Hcomma).
      reflexivity.
    + rewrite append_nil_r, Hne. unfold strings.Split.
      rewrite (splitFrom_no_sep "," (dColumn d) "" Hcomma). reflexivity.
  - rewrite allBytes_append, Hplain. now destruct (dPrimary d).
Qed.

Lemma DeriveColumns_declared {L : GoStdlib} (ds : list Declared) :
  forallb declaredOk ds = true ->
  DeriveColumns (map fieldOf ds) = Some (map columnOf ds).
Proof.
  induction ds as [|d ds IH]; intros Hall; [reflexivity |].
  cbn [forallb] in Hall. apply andb_prop in Hall as [Hd Hrest].
  cbn [map DeriveColumns]. rewrite (storageMetadata_fieldOf d Hd), (IH Hrest).
  unfold declaredOk in Hd.
  apply andb_prop in Hd as [_ Hsem]. unfold fieldOf. cbn [reflect.FieldType].
  unfold columnOf at 2.
  destruct (semantic (reflect.Kind_of (dType d))); [reflexivity | discriminate].
Qed.

(** X4: declaring columns and deriving the schema round-trip.  For a struct
    whose fields all carry the tag [db] with the quoted value [<column>]
    or [<column>,primary] and have supported types, the migration sends
    the create statement with exactly these columns, in field order, each
    with its token and with PRIMARY KEY on the marked ones. *)
Theorem AutoMigrate_declared_columns {L : GoStdlib}
        (p : repository.PostgresRepo.t) (name str : string)
        (ds : list Declared)
        (Hok : forallb declaredOk ds = true) :
  repository.PostgresRepo.AutoMigrate p
    (Some (reflect.MkType reflect.KStruct name str (map fieldOf ds)))
  = Exec (repository.PostgresRepo.db p)
         (CreateTableStatement (strings.ToLower name ++ "s") (map columnOf ds))
         []
         (fun r => Return (err_of r)).
Proof.
  rewrite AutoMigrate_struct.
  pose proof (AutoMigrate_loop_DeriveColumns (map fieldOf ds) []) as Hloop.
  rewrite (DeriveColumns_declared ds Hok) in Hloop.
  rewrite Hloop. reflexivity.
Qed.

(** X5: the primary-key marker is compared exactly.  A field tagged [db]
    with the quoted value [<column>,<marker>] gets PRIMARY KEY when the
    marker is the word primary and not otherwise (a leading space or
    another case is enough to lose it); the column is declared all the
    same. *)
Theorem AutoMigrate_loop_marker_exact {L : GoStdlib}
        (fname : string) (ftype : reflect.Type_) (col marker : string)
        (sem : SemanticType)
        (rest : list reflect.StructField) (columns : list string)
        (Hcol : allBytes strconv.plainByte col = true)
        (Hcomma : allBytes notComma col = true)
        (Hmarker : allBytes strconv.plainByte marker = true)
        (Hcomma' : allBytes notComma marker = true)
        (Hsem : semantic (reflect.Kind_of ftype) = Some sem) :
  repository.PostgresRepo.AutoMigrate_loop
    (reflect.MkField fname ftype (tagPair "db" (col ++ String "," marker)) :: rest)
    columns
  = repository.PostgresRepo.AutoMigrate_loop rest
      (columns ++
       [(col ++ " " ++ storageToken sem
           ++ (if marker =? "primary" then " PRIMARY KEY" else ""))%string])%list.
Proof.
  cbn [repository.PostgresRepo.AutoMigrate_loop reflect.Tag reflect.FieldType].
  rewrite Get_db_pair
    by (rewrite allBytes_append; cbn [allBytes]; now rewrite Hcol, Hmarker).
  assert (Hv : (col ++ String "," marker =? "")%string = false)
    by (destruct col; reflexivity).
  rewrite Hv. unfold strings.Split.
  rewrite (splitFrom_first "," col marker "" Hcomma).
  rewrite (splitFrom_no_sep "," marker "" Hcomma').
  rewrite goTypeToPostgres_semantic, Hsem.
  cbn [bind Monad_Go]. rewrite bindGo_Return.
  cbn [length nth Nat.ltb Nat.leb andb append].
  destruct (marker =? "primary")%string.
  - now rewrite !append_assoc.
  - now rewrite !append_nil_r.
Qed.

(** ** What the migration sends *)

Lemma AutoMigrate_loop_all_untagged {L : GoStdlib}
      (fields : list reflect.StructField) (columns : list string) :
  Forall (fun f => reflect.Get (reflect.Tag f) "db" = "") fields ->
  repository.PostgresRepo.AutoMigrate_loop fields columns = Return columns.
Proof.
  induction 1 as [|f rest Hf _ IH]; [reflexivity |].
  now rewrite (AutoMigrate_loop_untagged f rest columns Hf).
Qed.

(** X6: a struct none of whose fields declares a column, the empty struct
    among them, is not rejected: the migration sends a create statement
    with an empty column list. *)
Theorem AutoMigrate_without_columns {L : GoStdlib}
        (p : repository.PostgresRepo.t) (name str : string)
        (fields : list reflect.StructField)
        (Hnone : Forall (fun f => reflect.Get (reflect.Tag f) "db" = "") fields) :
  repository.PostgresRepo.AutoMigrate p
    (Some (reflect.MkType reflect.KStruct name str fields))
  = Exec (repository.PostgresRepo.db p)
         ("CREATE TABLE IF NOT EXISTS " ++ (strings.ToLower name ++ "s") ++ " ();")
         []
         (fun r => Return (err_of r)).
Proof.
  rewrite AutoMigrate_struct, (AutoMigrate_loop_all_untagged fields [] Hnone).
  reflexivity.
Qed.

Lemma prefix_append (a b : string) : String.prefix a (a ++ b) = true.
Proof.
  induction a as [|c a IH]; [now destruct b |].
  cbn [append String.prefix].
  destruct (Ascii.ascii_dec c c); [exact IH | contradiction].
Qed.

(** X7: every run of the migration, on any model and against any backend,
    either stops before anything is sent (by a panic or with the
    not-a-struct error), or sends exactly one statement, a CREATE TABLE IF
    NOT EXISTS without arguments on the repository's own handle, and
    returns the backend's answer to it as it is: nil when accepted, the
    backend's error unwrapped otherwise.  It never queries or prints. *)
Theorem AutoMigrate_run {L : GoStdlib}
        (p : repository.PostgresRepo.t) (model : option reflect.Type_)
        (W : Type) (B : Backend W) (w : W) :
  (exists o : Outcome (option error),
      run B (repository.PostgresRepo.AutoMigrate p model) w = (o, [], w)
      /\ ((exists msg, o = Panicked msg)
          \/ o = Returned (Some "model must be a struct")))
  \/ (exists q : string,
         String.prefix "CREATE TABLE IF NOT EXISTS " q = true
         /\ run B (repository.PostgresRepo.AutoMigrate p model) w
            = (Returned (err_of (fst (onExec B (repository.PostgresRepo.db p) q [] w))),
               [EvExec (repository.PostgresRepo.db p) q []],
               snd (onExec B (repository.PostgresRepo.db p) q [] w))).
Proof.
  destruct model as [[k name str fields]|].
  - destruct (reflect.Kind_eq_dec k reflect.KStruct) as [-> | Hk].
    + rewrite AutoMigrate_struct.
      pose proof (AutoMigrate_loop_DeriveColumns fields []) as Hloop.
      destruct (DeriveColumns fields) as [cols|].
      * right. rewrite Hloop. cbn [bindGo app].
        match goal with |- context [Exec _ ?q0 _ _] => exists q0 end.
        split; [apply prefix_append |]. cbn [run].
        match goal with |- context [onExec B ?d ?q0 [] w] =>
          destruct (onExec B d q0 [] w) as [r w1] end.
        reflexivity.
      * left. destruct Hloop as [msg Hloop]. rewrite Hloop.
        exists (Panicked msg). split; [reflexivity | left; now exists msg].
    + left.
      rewrite (AutoMigrate_non_struct p (reflect.MkType k name str fields) Hk).
      eexists. split; [reflexivity | now right].
  - left. exists (Panicked nil_dereference).
    split; [reflexivity | left; now eexists].
Qed.

(** ** Listing, in both backends *)

Lemma scanLoop_all_decoded (rows : list (Z * string)) (users : list models.User) :
  repository.scanLoop (map Ok rows) users
  = Ok (users ++ map userOfRow rows)%list.
Proof.
  revert users. induction rows as [|[id name] rows IH]; intros users.
  - cbn. now rewrite app_nil_r.
  - cbn [map repository.scanLoop]. rewrite IH, <- app_assoc. reflexivity.
Qed.

(** X8: when every row decodes and the iteration ends without error, both
    [GetAll]s return one record per row, in the order of the backend, with
    the identifier and name of the row and a nil error; on no rows this is
    the empty list.  The rows are closed afterwards. *)
Theorem GetAll_returns_all_rows
        (p : repository.PostgresRepo.t) (m : repository.MySQLRepo.t)
        (W : Type) (B : Backend W) (w w1 w2 : W) (rows : list (Z * string))
        (Hpg : onQuery B (repository.PostgresRepo.db p)
                       "SELECT id, name FROM users" [] w
               = (Ok {| sql.scans := map Ok rows; sql.Err := None |}, w1))
        (Hmy : onQuery B (repository.MySQLRepo.db m)
                       "SELECT id, name FROM users" [] w
               = (Ok {| sql.scans := map Ok rows; sql.Err := None |}, w2)) :
  run B (repository.PostgresRepo.GetAll p) w
  = (Returned (map userOfRow rows, None),
     [EvQuery (repository.PostgresRepo.db p) "SELECT id, name FROM users" [];
      EvClose (repository.PostgresRepo.db p)],
     w1)
  /\ run B (repository.MySQLRepo.GetAll m) w
     = (Returned (map userOfRow rows, None),
        [EvQuery (repository.MySQLRepo.db m) "SELECT id, name FROM users" [];
         EvClose (repository.MySQLRepo.db m)],
        w2).
Proof.
  unfold repository.PostgresRepo.GetAll, repository.MySQLRepo.GetAll.
  cbn [bind Monad_Go ret db_Query rows_Close bindGo run].
  rewrite Hpg, Hmy. cbn [bindGo run sql.scans sql.Err].
  rewrite scanLoop_all_decoded. split; reflexivity.
Qed.

(** X9: an error reported at the end of the iteration discards the rows
    already decoded: both [GetAll]s return no record and the wrapped
    error. *)
Theorem GetAll_iteration_error
        (p : repository.PostgresRepo.t) (m : repository.MySQLRepo.t)
        (W : Type) (B : Backend W) (w w1 w2 : W) (rows : list (Z * string))
        (e : error)
        (Hpg : onQuery B (repository.PostgresRepo.db p)
                       "SELECT id, name FROM users" [] w
               = (Ok {| sql.scans := map Ok rows; sql.Err := Some e |}, w1))
        (Hmy : onQuery B (repository.MySQLRepo.db m)
                       "SELECT id, name FROM users" [] w
               = (Ok {| sql.scans := map Ok rows; sql.Err := Some e |}, w2)) :
  outcome (run B (repository.PostgresRepo.GetAll p) w)
  = Returned ([], Some ("error iterating rows: " ++ e))
  /\ outcome (run B (repository.MySQLRepo.GetAll m) w)
     = Returned ([], Some ("error iterating rows: " ++ e)).
Proof.
  unfold repository.PostgresRepo.GetAll, repository.MySQLRepo.GetAll.
  cbn [bind Monad_Go ret db_Query rows_Close bindGo run].
  rewrite Hpg, Hmy. cbn [bindGo run sql.scans sql.Err].
  rewrite scanLoop_all_decoded. split; reflexivity.
Qed.

Lemma scanLoop_cases (rows : list (res (Z * string))) (users : list models.User) :
  (exists e, repository.scanLoop rows users = Fail e)
  \/ (exists us, repository.scanLoop rows users = Ok us).
Proof.
  revert users. induction rows as [|[[id name]|e] rows IH]; intros users.
  - right. now eexists.
  - apply IH.
  - left. now eexists.
Qed.

(** X10: every run of a [GetAll], in both backends and whatever the
    backend answers, sends the one SELECT and no statement; when the query
    fails it returns the wrapped error without closing anything, and when
    the query succeeds it closes the rows exactly once, also on a decoding
    or iteration error.  It never returns records together with an
    error. *)
Theorem GetAll_run
        (p : repository.PostgresRepo.t) (m : repository.MySQLRepo.t)
        (W : Type) (B : Backend W) (w : W) :
  GetAllShape (repository.PostgresRepo.db p)
    (onQuery B (repository.PostgresRepo.db p) "SELECT id, name FROM users" [] w)
    (run B (repository.PostgresRepo.GetAll p) w)
  /\ GetAllShape (repository.MySQLRepo.db m)
       (onQuery B (repository.MySQLRepo.db m) "SELECT id, name FROM users" [] w)
       (run B (repository.MySQLRepo.GetAll m) w).
Proof.
  unfold GetAllShape, repository.PostgresRepo.GetAll, repository.MySQLRepo.GetAll.
  cbn [bind Monad_Go ret db_Query rows_Close bindGo run].
  split.
  - destruct (onQuery B (repository.PostgresRepo.db p) _ [] w) as [[rows|e] w1];
      cbn [fst snd bindGo run]; [| reflexivity].
    destruct (scanLoop_cases (sql.scans rows) []) as [[e He] | [us Hus]].
    + rewrite He. exists [], (Some e). split; [reflexivity | reflexivity].
    + rewrite Hus. destruct (sql.Err rows) as [e|].
      * eexists [], _. split; reflexivity.
      * exists us, None. split; [reflexivity | congruence].
  - destruct (onQuery B (repository.MySQLRepo.db m) _ [] w) as [[rows|e] w1];
      cbn [fst snd bindGo run]; [| reflexivity].
    destruct (scanLoop_cases (sql.scans rows) []) as [[e He] | [us Hus]].
    + rewrite He. exists [], (Some e). split; [reflexivity | reflexivity].
    + rewrite Hus. destruct (sql.Err rows) as [e|].
      * eexists [], _. split; reflexivity.
      * exists us, None. split; [reflexivity | congruence].
Qed.

(** ** Inserting, in both backends *)

(** X11: when the backend refuses the INSERT, both [Create]s return its
    error behind the words failed to insert user, after that single
    statement; the PostgreSQL one prints nothing. *)
Theorem Create_exec_failure
        (p : repository.PostgresRepo.t) (m : repository.MySQLRepo.t)
        (user : models.User)
        (W : Type) (B : Backend W) (w w1 w2 : W) (e : error)
        (Hpg : onExec B (repository.PostgresRepo.db p)
                      "INSERT INTO users (name) VALUES ($1)"
                      [sql.VString (models.Name user)] w = (Fail e, w1))
        (Hmy : onExec B (repository.MySQLRepo.db m)
                      "INSERT INTO users (name) VALUES (?)"
                      [sql.VString (models.Name user)] w = (Fail e, w2)) :
  run B (repository.PostgresRepo.Create p user) w
  = (Returned (Some ("failed to insert user: " ++ e)),
     [EvExec (repository.PostgresRepo.db p)
             "INSERT INTO users (name) VALUES ($1)"
             [sql.VString (models.Name user)]],
     w1)
  /\ run B (repository.MySQLRepo.Create m user) w
     = (Returned (Some ("failed to insert user: " ++ e)),
        [EvExec (repository.MySQLRepo.db m)
                "INSERT INTO users (name) VALUES (?)"
                [sql.VString (models.Name user)]],
        w2).
Proof.
  unfold repository.PostgresRepo.Create, repository.MySQLRepo.Create.
  cbn [bind Monad_Go ret db_Exec bindGo run].
  rewrite Hpg, Hmy. split; reflexivity.
Qed.

(** X12: every run of a [Create], in both backends and whatever the
    backend answers, returns (it does not panic) and sends exactly one
    statement, the INSERT of its backend with the name as only argument:
    no query, no schema statement, no second statement.  The MySQL one
    does nothing else; the PostgreSQL one prints the line with the number
    of inserted rows after the statement exactly when it returns nil, and
    nothing otherwise. *)
Theorem Create_run
        (p : repository.PostgresRepo.t) (m : repository.MySQLRepo.t)
        (user : models.User)
        (W : Type) (B : Backend W) (w : W) :
  (exists (err : option error) (printed : list Event),
      run B (repository.PostgresRepo.Create p user) w
      = (Returned err,
         EvExec (repository.PostgresRepo.db p)
                "INSERT INTO users (name) VALUES ($1)"
                [sql.VString (models.Name user)] :: printed,
         snd (onExec B (repository.PostgresRepo.db p)
                     "INSERT INTO users (name) VALUES ($1)"
                     [sql.VString (models.Name user)] w))
      /\ ((err = None
           /\ exists n : Z,
                printed = [EvPrintln [sql.VString "Inserted rows:"; sql.VInt n]])
          \/ (err <> None /\ printed = [])))
  /\ (exists err : option error,
         run B (repository.MySQLRepo.Create m user) w
         = (Returned err,
            [EvExec (repository.MySQLRepo.db m)
                    "INSERT INTO users (name) VALUES (?)"
                    [sql.VString (models.Name user)]],
            snd (onExec B (repository.MySQLRepo.db m)
                        "INSERT INTO users (name) VALUES (?)"
                        [sql.VString (models.Name user)] w))).
Proof.
  unfold repository.PostgresRepo.Create, repository.MySQLRepo.Create.
  cbn [bind Monad_Go ret db_Exec fmt_Println bindGo run].
  split.
  - destruct (onExec B (repository.PostgresRepo.db p) _ _ w) as [[result|e] w1];
      cbn [bindGo run snd].
    + destruct (sql.RowsAffected result) as [n|e0]; cbn [bindGo run].
      * exists None, [EvPrintln [sql.VString "Inserted rows:"; sql.VInt n]].
        split; [reflexivity |]. left. split; [reflexivity | now exists n].
      * eexists (Some _), []. split; [reflexivity |].
        right. split; [discriminate | reflexivity].
    + eexists (Some _), []. split; [reflexivity |].
      right. split; [discriminate | reflexivity].
  - destruct (onExec B (repository.MySQLRepo.db m) _ _ w) as [[result|e] w1];
      cbn [bindGo run snd]; eexists; reflexivity.
Qed.

(** ** The service over any repository *)

(** Running a program followed by another. *)
Lemma run_bindGo {W A C : Type} (B : Backend W) (p : Go A) (f : A -> Go C) :
  forall w : W,
    run B (bindGo p f) w
    = match run B p w with
      | (Returned a, tr, w1) =>
          let '(o, tr2, w2) := run B (f a) w1 in (o, (tr ++ tr2)%list, w2)
      | (Panicked msg, tr, w1) => (Panicked msg, tr, w1)
      end.
Proof.
  induction p as [a | msg | db q args k IH | db q args k IH | db k IH | args k IH];
    intros w; cbn [bindGo run].
  - destruct (run B (f a) w) as [[o tr] w2]. reflexivity.
  - reflexivity.
  - destruct (onExec B db q args w) as [r w1]. rewrite IH.
    destruct (run B (k r) w1) as [[[a|msg] tr] w2]; [| reflexivity].
    destruct (run B (f a) w2) as [[o tr2] w3]. reflexivity.
  - destruct (onQuery B db q args w) as [r w1]. rewrite IH.
    destruct (run B (k r) w1) as [[[a|msg] tr] w2]; [| reflexivity].
    destruct (run B (f a) w2) as [[o tr2] w3]. reflexivity.
  - rewrite IH.
    destruct (run B k w) as [[[a|msg] tr] w2]; [| reflexivity].
    destruct (run B (f a) w2) as [[o tr2] w3]. reflexivity.
  - rewrite IH.
    destruct (run B k w) as [[[a|msg] tr] w2]; [| reflexivity].
    destruct (run B (f a) w2) as [[o tr2] w3]. reflexivity.
Qed.

(** X13: on a non-empty name, a run of [RegisterUser] is the run of the
    repository's [Create] on the new record, with the same events and the
    same final state of the backend; only a returned error is changed, by
    putting failed to register user in front of it. *)
Theorem RegisterUser_run
        (s : service.UserService) (name : string)
        (W : Type) (B : Backend W) (w : W)
        (Hname : name <> "") :
  run B (service.RegisterUser s name) w
  = let '(o, tr, w1) :=
      run B (repository.Create (service.repo s)
               {| models.ID := 0%Z; models.Name := name |}) w in
    (match o with
     | Returned (Some e) => Returned (Some ("failed to register user: " ++ e))
     | Returned None => Returned None
     | Panicked msg => Panicked msg
     end, tr, w1).
Proof.
  unfold service.RegisterUser.
  destruct (String.eqb_spec name ""); [contradiction |].
  cbn [bind Monad_Go]. cbv zeta. rewrite run_bindGo. unfold error.
  destruct (@run W (option string) B (repository.Create (service.repo s) _) w)
    as [[[[e|]|msg] tr] w1]; cbn [ret Monad_Go run];
    now rewrite ?app_nil_r.
Qed.

(** X14: a run of [ListUsers] is the run of the repository's [GetAll],
    with the same events and final state; the records are passed on
    unchanged when there is no error, and on an error the error is
    returned behind failed to list users and any records that came with
    it are dropped. *)
Theorem ListUsers_run
        (s : service.UserService)
        (W : Type) (B : Backend W) (w : W) :
  run B (service.ListUsers s) w
  = let '(o, tr, w1) := run B (repository.GetAll (service.repo s)) w in
    (match o with
     | Returned (_, Some e) => Returned ([], Some ("failed to list users: " ++ e))
     | Returned (users, None) => Returned (users, None)
     | Panicked msg => Panicked msg
     end, tr, w1).
Proof.
  unfold service.ListUsers.
  cbn [bind Monad_Go]. rewrite run_bindGo. unfold error.
  destruct (@run W (list models.User * option string) B
                 (repository.GetAll (service.repo s)) w)
    as [[[[users [e|]]|msg] tr] w1]; cbn [ret Monad_Go run];
    now rewrite ?app_nil_r.
Qed.

(** ** The service over the two backends *)

(** X15: the error of a refused INSERT reaches the caller of
    [RegisterUser] with both layers of context in front of it, in either
    backend. *)
Theorem RegisterUser_storage_failure
        (p : repository.PostgresRepo.t) (m : repository.MySQLRepo.t)
        (name : string)
        (W : Type) (B : Backend W) (w w1 w2 : W) (e : error)
        (Hname : name <> "")
        (Hpg : onExec B (repository.PostgresRepo.db p)
                      "INSERT INTO users (name) VALUES ($1)"
                      [sql.VString name] w = (Fail e, w1))
        (Hmy : onExec B (repository.MySQLRepo.db m)
                      "INSERT INTO users (name) VALUES (?)"
                      [sql.VString name] w = (Fail e, w2)) :
  outcome (run B (service.RegisterUser
                    (service.NewUserService
                       (repository.PostgresRepo.asUserRepository p)) name) w)
  = Returned (Some ("failed to register user: failed to insert user: " ++ e))
  /\ outcome (run B (service.RegisterUser
                       (service.NewUserService
                          (repository.MySQLRepo.asUserRepository m)) name) w)
     = Returned (Some ("failed to register user: failed to insert user: " ++ e)).
Proof.
  unfold service.RegisterUser.
  destruct (String.eqb_spec name ""); [contradiction |].
  cbn [service.NewUserService service.repo repository.Create
       repository.PostgresRepo.asUserRepository
       repository.MySQLRepo.asUserRepository].
  unfold repository.PostgresRepo.Create, repository.MySQLRepo.Create.
  cbn [bind Monad_Go ret db_Exec bindGo run models.Name].
  rewrite Hpg, Hmy. split; reflexivity.
Qed.

Lemma scanLoop_first_failure
      (decoded : list (Z * string)) (e0 : error)
      (later : list (res (Z * string))) (users : list models.User) :
  repository.scanLoop (map Ok decoded ++ Fail e0 :: later) users
  = Fail ("failed to scan user: " ++ e0).
Proof.
  revert users. induction decoded as [|[id name] decoded IH]; intros users.
  - reflexivity.
  - cbn [map app repository.scanLoop]. apply IH.
Qed.

(** Rows of which one fails to decode are some decoded rows, the first
    failing row, and the rows after it. *)
Lemma first_failure_split (rows : list (res (Z * string))) :
  (exists e, In (Fail e) rows) ->
  exists decoded e0 later, rows = (map Ok decoded ++ Fail e0 :: later)%list.
Proof.
  intros [e Hin].
  induction rows as [|[r | e1] rows IH]; [destruct Hin | |].
  - destruct Hin as [Hr | Hin]; [discriminate |].
    destruct (IH Hin) as [decoded [e0 [later ->]]].
    now exists (r :: decoded), e0, later.
  - now exists [], e1, rows.
Qed.

(** X16: when one of the rows fails to decode, [ListUsers] over either
    backend returns no record and the decoding error of the first such
    row, the one before which every row decodes, with both layers of
    context in front of it. *)
Theorem ListUsers_decode_failure
        (p : repository.PostgresRepo.t) (m : repository.MySQLRepo.t)
        (W : Type) (B : Backend W) (w w1 w2 : W) (rows : sql.Rows)
        (Hpg : onQuery B (repository.PostgresRepo.db p)
                       "SELECT id, name FROM users" [] w = (Ok rows, w1))
        (Hmy : onQuery B (repository.MySQLRepo.db m)
                       "SELECT id, name FROM users" [] w = (Ok rows, w2))
        (Hbad : exists e, In (Fail e) (sql.scans rows)) :
  exists (decoded : list (Z * string)) (e0 : error)
         (later : list (res (Z * string))),
    sql.scans rows = (map Ok decoded ++ Fail e0 :: later)%list
    /\ outcome (run B (service.ListUsers
                         (service.NewUserService
                            (repository.PostgresRepo.asUserRepository p))) w)
       = Returned ([], Some ("failed to list users: failed to scan user: " ++ e0))
    /\ outcome (run B (service.ListUsers
                         (service.NewUserService
                            (repository.MySQLRepo.asUserRepository m))) w)
       = Returned ([], Some ("failed to list users: failed to scan user: " ++ e0)).
Proof.
  destruct (first_failure_split (sql.scans rows) Hbad)
    as [decoded [e0 [later Hsplit]]].
  exists decoded, e0, later. split; [exact Hsplit |].
  unfold service.ListUsers.
  cbn [service.NewUserService service.repo repository.GetAll
       repository.PostgresRepo.asUserRepository
       repository.MySQLRepo.asUserRepository].
  unfold repository.PostgresRepo.GetAll, repository.MySQLRepo.GetAll.
  cbn [bind Monad_Go ret db_Query rows_Close bindGo run].
  rewrite Hpg, Hmy. cbn [bindGo run].
  rewrite Hsplit, scanLoop_first_failure.
  split; reflexivity.
Qed.

(** X17: when every row decodes and the iteration ends without error,
    [ListUsers] over either backend returns one record per row, in the
    order of the backend, with a nil error. *)
Theorem ListUsers_returns_rows
        (p : repository.PostgresRepo.t) (m : repository.MySQLRepo.t)
        (W : Type) (B : Backend W) (w w1 w2 : W) (rows : list (Z * string))
        (Hpg : onQuery B (repository.PostgresRepo.db p)
                       "SELECT id, name FROM users" [] w
               = (Ok {| sql.scans := map Ok rows; sql.Err := None |}, w1))
        (Hmy : onQuery B (repository.MySQLRepo.db m)
                       "SELECT id, name FROM users" [] w
               = (Ok {| sql.scans := map Ok rows; sql.Err := None |}, w2)) :
  outcome (run B (service.ListUsers
                    (service.NewUserService
                       (repository.PostgresRepo.asUserRepository p))) w)
  = Returned (map userOfRow rows, None)
  /\ outcome (run B (service.ListUsers
                       (service.NewUserService
                          (repository.MySQLRepo.asUserRepository m))) w)
     = Returned (map userOfRow rows, None).
Proof.
  unfold service.ListUsers.
  cbn [service.NewUserService service.repo repository.GetAll
       repository.PostgresRepo.asUserRepository
       repository.MySQLRepo.asUserRepository].
  unfold repository.PostgresRepo.GetAll, repository.MySQLRepo.GetAll.
  cbn [bind Monad_Go ret db_Query rows_Close bindGo run].
  rewrite Hpg, Hmy. cbn [bindGo run sql.scans sql.Err].
  rewrite scanLoop_all_decoded. split; reflexivity.
Qed.

(** ** Opening the connection *)

(** X18: every run of a connection constructor opens once, with the name
    of its driver; it pings only when the opening succeeded, and then the
    handle just opened; it returns that handle with a nil error when the
    ping succeeds, and otherwise no handle and the wrapped error of the
    step that failed. *)
Theorem NewConnection_run
        (cfg : config.DatabaseConfig)
        (W : Type) (D : config.Driver W) (w : W) :
  ConnectionShape D "postgres" w
    (config.dial D (config.NewPostgresConnection cfg) w)
  /\ ConnectionShape D "mysql" w
       (config.dial D (config.NewMySQLConnection cfg) w).
Proof.
  unfold ConnectionShape, config.NewPostgresConnection, config.NewMySQLConnection.
  cbv zeta. cbn [config.dial].
  split;
    match goal with |- context [config.onOpen D ?drv ?dsn w] =>
      exists dsn; destruct (config.onOpen D drv dsn w) as [[db|e] w1] end;
    cbn [config.dial]; try reflexivity;
    match goal with |- context [config.onPing D ?h ?w0] =>
      destruct (config.onPing D h w0) as [[e|] w2] end; reflexivity.
Qed.

(** X19: the parts of the configuration are put into the connection
    string as they are, without escaping: a colon moved from the user name
    to the password gives the same program, so the two configurations
    cannot be told apart by the driver. *)
Theorem connection_string_not_escaped
        (host dbname sslmode user pass1 pass2 : string) (port : Z) :
  config.NewPostgresConnection
    {| config.Host := host; config.Port := port;
       config.User := user ++ ":" ++ pass1; config.Password := pass2;
       config.DBName := dbname; config.SSLMode := sslmode |}
  = config.NewPostgresConnection
      {| config.Host := host; config.Port := port;
         config.User := user; config.Password := pass1 ++ ":" ++ pass2;
         config.DBName := dbname; config.SSLMode := sslmode |}
  /\ config.NewMySQLConnection
       {| config.Host := host; config.Port := port;
          config.User := user ++ ":" ++ pass1; config.Password := pass2;
          config.DBName := dbname; config.SSLMode := sslmode |}
     = config.NewMySQLConnection
         {| config.Host := host; config.Port := port;
            config.User := user; config.Password := pass1 ++ ":" ++ pass2;
            config.DBName := dbname; config.SSLMode := sslmode |}.
Proof.
  unfold config.NewPostgresConnection, config.NewMySQLConnection.
  cbn [config.User config.Password config.Host config.Port config.DBName
       config.SSLMode].
  split; cbv zeta; f_equal; now rewrite !append_assoc.
Qed.

(** ** When the migration panics *)

Lemma DeriveColumns_None_inv {L : GoStdlib} (fields : list reflect.StructField) :
  DeriveColumns fields = None ->
  exists f, In f fields
            /\ storageMetadata f <> None
            /\ semantic (reflect.Kind_of (reflect.FieldType f)) = None.
Proof.
  induction fields as [|f rest IH]; [discriminate |].
  cbn [DeriveColumns]. intros Hnone.
  destruct (storageMetadata f) as [[col pk]|] eqn:Hmeta.
  - destruct (semantic (reflect.Kind_of (reflect.FieldType f))) as [sem|] eqn:Hsem.
    + destruct (DeriveColumns rest) as [cols|]; [discriminate |].
      destruct (IH eq_refl) as [g [Hin Hg]]. exists g. split; [now right | exact Hg].
    + exists f. split; [now left |]. split; [congruence | exact Hsem].
  - destruct (IH Hnone) as [g [Hin Hg]]. exists g. split; [now right | exact Hg].
Qed.

Lemma storageMetadata_tagged {L : GoStdlib} (f : reflect.StructField) :
  storageMetadata f <> None <-> reflect.Get (reflect.Tag f) "db" <> "".
Proof.
  unfold storageMetadata.
  destruct (String.eqb_spec (reflect.Get (reflect.Tag f) "db") "") as [-> | Hne].
  - split; congruence.
  - split; [intros _; exact Hne | discriminate].
Qed.

(** X20: the migration of a struct panics exactly when one of the fields
    that carry a [db] tag value has a type outside int, int64 and string;
    with supported types on all of them it cannot panic. *)
Theorem AutoMigrate_panics_iff {L : GoStdlib}
        (p : repository.PostgresRepo.t) (ty : reflect.Type_)
        (Hstruct : reflect.Kind_of ty = reflect.KStruct) :
  (exists msg, repository.PostgresRepo.AutoMigrate p (Some ty) = Panic msg)
  <-> (exists f, In f (reflect.Fields ty)
                 /\ reflect.Get (reflect.Tag f) "db" <> ""
                 /\ semantic (reflect.Kind_of (reflect.FieldType f)) = None).
Proof.
  destruct ty as [k name str fields]. cbn [reflect.Kind_of] in Hstruct. subst k.
  cbn [reflect.Fields]. rewrite AutoMigrate_struct.
  pose proof (AutoMigrate_loop_DeriveColumns fields []) as Hloop.
  split.
  - intros [msg Hpanic].
    destruct (DeriveColumns fields) as [cols|] eqn:Hcols.
    + rewrite Hloop in Hpanic. discriminate Hpanic.
    + destruct (DeriveColumns_None_inv fields Hcols) as [f [Hin [Hmeta Hsem]]].
      exists f. split; [exact Hin |]. split; [| exact Hsem].
      now apply storageMetadata_tagged.
  - intros [f [Hin [Htag Hsem]]].
    apply storageMetadata_tagged in Htag.
    rewrite (DeriveColumns_unsupported fields f Hin Htag Hsem) in Hloop.
    destruct Hloop as [msg Hloop]. exists msg. now rewrite Hloop.
Qed.

(** ** Instances of the further properties *)

Lemma AutoMigrate_ignores_untagged_field_witness :
  repository.PostgresRepo.AutoMigrate (L := plainStdlib)
    {| repository.PostgresRepo.db := 0 |}
    (Some (reflect.MkType reflect.KStruct "User" "models.User"
             ([reflect.MkField "Name" models.string_type models.Name_tag]
                ++ reflect.MkField "Active" bool_type "" :: [])))
  = repository.PostgresRepo.AutoMigrate (L := plainStdlib)
      {| repository.PostgresRepo.db := 0 |}
      (Some (reflect.MkType reflect.KStruct "User" "models.User"
               ([reflect.MkField "Name" models.string_type models.Name_tag]
                  ++ []))).
Proof.
  exact (AutoMigrate_ignores_untagged_field (L := plainStdlib)
           {| repository.PostgresRepo.db := 0 |} "User" "models.User"
           [reflect.MkField "Name" models.string_type models.Name_tag] []
           (reflect.MkField "Active" bool_type "") eq_refl).
Defined.

Lemma AutoMigrate_drops_unquoted_tag_witness :
  repository.PostgresRepo.AutoMigrate (L := plainStdlib)
    {| repository.PostgresRepo.db := 0 |}
    (Some (reflect.MkType reflect.KStruct "User" "models.User"
             ([] ++ reflect.MkField "ID" models.int_type
                      ("db" ++ String ":" "id, primary")
                 :: [reflect.MkField "Name" models.string_type models.Name_tag])))
  = repository.PostgresRepo.AutoMigrate (L := plainStdlib)
      {| repository.PostgresRepo.db := 0 |}
      (Some (reflect.MkType reflect.KStruct "User" "models.User"
               ([] ++ [reflect.MkField "Name" models.string_type models.Name_tag]))).
Proof.
  refine (AutoMigrate_drops_unquoted_tag (L := plainStdlib)
            {| repository.PostgresRepo.db := 0 |} "User" "models.User"
            [] [reflect.MkField "Name" models.string_type models.Name_tag]
            "ID" models.int_type "db" "id, primary" _ eq_refl eq_refl).
  discriminate.
Defined.

Lemma AutoMigrate_passes_over_other_keys_witness :
  repository.PostgresRepo.AutoMigrate (L := plainStdlib)
    {| repository.PostgresRepo.db := 0 |}
    (Some (reflect.MkType reflect.KStruct "User" "models.User"
             ([] ++ reflect.MkField "Name" models.string_type
                      (tagPair "json" "name" ++ String " " models.Name_tag)
                 :: [])))
  = repository.PostgresRepo.AutoMigrate (L := plainStdlib)
      {| repository.PostgresRepo.db := 0 |}
      (Some (reflect.MkType reflect.KStruct "User" "models.User"
               ([] ++ reflect.MkField "Name" models.string_type models.Name_tag
                   :: []))).
Proof.
  refine (AutoMigrate_passes_over_other_keys (L := plainStdlib)
            {| repository.PostgresRepo.db := 0 |} "User" "models.User" [] []
            "Name" models.string_type "json" "name" models.Name_tag
            _ eq_refl eq_refl _); discriminate.
Defined.

Lemma AutoMigrate_declared_columns_witness :
  repository.PostgresRepo.AutoMigrate (L := plainStdlib)
    {| repository.PostgresRepo.db := 0 |}
    (Some (reflect.MkType reflect.KStruct "User" "models.User"
             (map fieldOf
                [ {| dField := "ID"; dType := models.int_type;
                     dColumn := "id"; dPrimary := true |};
                  {| dField := "Name"; dType := models.string_type;
                     dColumn := "name"; dPrimary := false |} ])))
  = Exec 0
         "CREATE TABLE IF NOT EXISTS users (id BIGSERIAL PRIMARY KEY, name TEXT);"
         []
         (fun r => Return (err_of r)).
Proof.
  exact (AutoMigrate_declared_columns (L := plainStdlib)
           {| repository.PostgresRepo.db := 0 |} "User" "models.User"
           [ {| dField := "ID"; dType := models.int_type;
                dColumn := "id"; dPrimary := true |};
             {| dField := "Name"; dType := models.string_type;
                dColumn := "name"; dPrimary := false |} ]
           eq_refl).
Defined.

Lemma AutoMigrate_loop_marker_exact_witness :
  repository.PostgresRepo.AutoMigrate_loop (L := plainStdlib)
    [reflect.MkField "ID" models.int_type
       (tagPair "db" ("id" ++ String "," " primary"))]
    []
  = Return ["id BIGSERIAL"].
Proof.
  exact (AutoMigrate_loop_marker_exact (L := plainStdlib)
           "ID" models.int_type "id" " primary" SemInteger [] []
           eq_refl eq_refl eq_refl eq_refl eq_refl).
Defined.

Lemma AutoMigrate_without_columns_witness :
  repository.PostgresRepo.AutoMigrate (L := plainStdlib)
    {| repository.PostgresRepo.db := 0 |}
    (Some (reflect.MkType reflect.KStruct "Audit" "models.Audit"
             [reflect.MkField "At" bool_type ""]))
  = Exec 0 "CREATE TABLE IF NOT EXISTS audits ();" []
         (fun r => Return (err_of r)).
Proof.
  refine (AutoMigrate_without_columns (L := plainStdlib)
            {| repository.PostgresRepo.db := 0 |} "Audit" "models.Audit"
            [reflect.MkField "At" bool_type ""] _).
  constructor; [reflexivity | constructor].
Defined.

Lemma GetAll_returns_all_rows_witness :
  run (rowsBackend {| sql.scans := map Ok [(1%Z, "Alice"); (2%Z, "Bob")];
                      sql.Err := None |})
      (repository.PostgresRepo.GetAll {| repository.PostgresRepo.db := 0 |}) tt
  = (Returned ([ {| models.ID := 1%Z; models.Name := "Alice" |};
                 {| models.ID := 2%Z; models.Name := "Bob" |} ], None),
     [EvQuery 0 "SELECT id, name FROM users" []; EvClose 0], tt).
Proof.
  exact (proj1 (GetAll_returns_all_rows
                  {| repository.PostgresRepo.db := 0 |}
                  {| repository.MySQLRepo.db := 0 |}
                  unit
                  (rowsBackend
                     {| sql.scans := map Ok [(1%Z, "Alice"); (2%Z, "Bob")];
                        sql.Err := None |})
                  tt tt tt [(1%Z, "Alice"); (2%Z, "Bob")] eq_refl eq_refl)).
Defined.

Lemma GetAll_iteration_error_witness :
  outcome (run (rowsBackend {| sql.scans := map Ok [(1%Z, "Alice")];
                               sql.Err := Some "connection reset" |})
               (repository.MySQLRepo.GetAll {| repository.MySQLRepo.db := 0 |}) tt)
  = Returned ([], Some "error iterating rows: connection reset").
Proof.
  exact (proj2 (GetAll_iteration_error
                  {| repository.PostgresRepo.db := 0 |}
                  {| repository.MySQLRepo.db := 0 |}
                  unit
                  (rowsBackend
                     {| sql.scans := map Ok [(1%Z, "Alice")];
                        sql.Err := Some "connection reset" |})
                  tt tt tt [(1%Z, "Alice")] "connection reset"
                  eq_refl eq_refl)).
Defined.

Lemma Create_exec_failure_witness :
  run (failingBackend "connection refused")
      (repository.PostgresRepo.Create {| repository.PostgresRepo.db := 0 |}
         {| models.ID := 0%Z; models.Name := "Alice" |}) tt
  = (Returned (Some "failed to insert user: connection refused"),
     [EvExec 0 "INSERT INTO users (name) VALUES ($1)" [sql.VString "Alice"]],
     tt).
Proof.
  exact (proj1 (Create_exec_failure
                  {| repository.PostgresRepo.db := 0 |}
                  {| repository.MySQLRepo.db := 0 |}
                  {| models.ID := 0%Z; models.Name := "Alice" |}
                  unit (failingBackend "connection refused") tt tt tt
                  "connection refused" eq_refl eq_refl)).
Defined.

Lemma RegisterUser_run_witness :
  run emptyBackend
      (service.RegisterUser (service.NewUserService spyRepository) "Alice") tt
  = (Returned None,
     [EvExec 0 "spy.Create" [sql.VInt 0; sql.VString "Alice"]], tt).
Proof.
  refine (RegisterUser_run (service.NewUserService spyRepository) "Alice"
            unit emptyBackend tt _).
  discriminate.
Defined.

Lemma RegisterUser_storage_failure_witness :
  outcome (run (failingBackend "connection refused")
               (service.RegisterUser
                  (service.NewUserService
                     (repository.MySQLRepo.asUserRepository
                        {| repository.MySQLRepo.db := 0 |})) "Alice") tt)
  = Returned
      (Some "failed to register user: failed to insert user: connection refused").
Proof.
  refine (proj2 (RegisterUser_storage_failure
                   {| repository.PostgresRepo.db := 0 |}
                   {| repository.MySQLRepo.db := 0 |}
                   "Alice" unit (failingBackend "connection refused") tt tt tt
                   "connection refused" _ eq_refl eq_refl)).
  discriminate.
Defined.

Lemma ListUsers_decode_failure_witness :
  outcome (run (rowsBackend
                  {| sql.scans := [Ok (1%Z, "Alice"); Fail "first failure";
                                   Fail "second failure"];
                     sql.Err := None |})
               (service.ListUsers
                  (service.NewUserService
                     (repository.PostgresRepo.asUserRepository
                        {| repository.PostgresRepo.db := 0 |}))) tt)
  = Returned ([], Some "failed to list users: failed to scan user: first failure").
Proof.
  destruct (ListUsers_decode_failure
              {| repository.PostgresRepo.db := 0 |}
              {| repository.MySQLRepo.db := 0 |}
              unit
              (rowsBackend
                 {| sql.scans := [Ok (1%Z, "Alice"); Fail "first failure";
                                  Fail "second failure"];
                    sql.Err := None |})
              tt tt tt
              {| sql.scans := [Ok (1%Z, "Alice"); Fail "first failure";
                               Fail "second failure"];
                 sql.Err := None |}
              eq_refl eq_refl
              (ex_intro _ "second failure"
                        (or_intror (or_intror (or_introl eq_refl)))))
    as [decoded [e0 [later [Hsplit [Hpg _]]]]].
  cbn [sql.scans] in Hsplit.
  destruct decoded as [|d1 [|d2 decoded]]; cbn [map app] in Hsplit;
    try discriminate Hsplit.
  injection Hsplit as _ He _. rewrite <- He in Hpg. exact Hpg.
Defined.

Lemma ListUsers_returns_rows_witness :
  outcome (run (rowsBackend {| sql.scans := map Ok [(1%Z, "Alice"); (2%Z, "Bob")];
                               sql.Err := None |})
               (service.ListUsers
                  (service.NewUserService
                     (repository.MySQLRepo.asUserRepository
                        {| repository.MySQLRepo.db := 0 |}))) tt)
  = Returned ([ {| models.ID := 1%Z; models.Name := "Alice" |};
                {| models.ID := 2%Z; models.Name := "Bob" |} ], None).
Proof.
  exact (proj2 (ListUsers_returns_rows
                  {| repository.PostgresRepo.db := 0 |}
                  {| repository.MySQLRepo.db := 0 |}
                  unit
                  (rowsBackend
                     {| sql.scans := map Ok [(1%Z, "Alice"); (2%Z, "Bob")];
                        sql.Err := None |})
                  tt tt tt [(1%Z, "Alice"); (2%Z, "Bob")] eq_refl eq_refl)).
Defined.

Lemma AutoMigrate_panics_iff_witness :
  exists msg,
    repository.PostgresRepo.AutoMigrate (L := plainStdlib)
      {| repository.PostgresRepo.db := 0 |} (Some Flagged_type) = Panic msg.
Proof.
  apply (proj2 (AutoMigrate_panics_iff (L := plainStdlib)
                  {| repository.PostgresRepo.db := 0 |} Flagged_type eq_refl)).
  exists (reflect.MkField "Active" bool_type
            ("db:" ++ String dquote ("active" ++ String dquote EmptyString))).
  split; [now left |]. split; [discriminate | reflexivity].
Defined.

(** ** The schema statement and its idempotence *)





(** Without IF NOT EXISTS the same backend refuses the second creation. *)
Lemma catalogBackend_plain_create_refused :
  fst (onExec catalogBackend 0 "CREATE TABLE members (name TEXT);" [] ["members"])
  = Fail "relation members already exists".
Proof. reflexivity. Qed.


